(** * transformer_scratch: attention, multi-head attention, feed-forward

    A shallow embedding of the three [torch.nn.Module] classes of
    [transformer_scratch.ipynb] ([Attention], [MultiHeadAttention],
    [FullyConnectedFeedForwardNetwork]) together with the part of the
    PyTorch runtime they call.

    Conventions.
    - Python [int] arguments are [Z]; tensor sizes are [nat].
    - Tensor elements (Python/torch floats) are modelled as real numbers:
      arithmetic is exact, there is no NaN, infinity or rounding.  Where a
      division by zero decides a property (the attention weights of a head
      of width zero), the values are [Float]s with the IEEE special values;
      statements that need the products to stay finite say so with an
      explicit range hypothesis.
    - A batch tensor has rank 3 (batch, seq_len, features), as every
      tensor fed to the modules in the notebook; it carries its sizes
      explicitly (as torch does) next to its elements.
    - Learnable parameters live in a store; a module holds the locations
      of its parameters, so that two references to one module object share
      their parameters.
    - Python exceptions are values of [Exception]; a raised exception does
      not roll the store back. *)

From Stdlib Require Import String.
From Stdlib Require Import Bool ZArith QArith Qreals Reals Lra Lia List Permutation.
Import ListNotations.

Close Scope Q_scope.
Close Scope R_scope.
Close Scope Z_scope.
Open Scope nat_scope.

(** ** Exceptions and results *)

Inductive Exception : Type :=
| ZeroDivisionError
| OverflowError
| AssertionError (msg : string)
| ValueError (msg : string)
| RuntimeError (msg : string).

Inductive Result (A : Type) : Type :=
| Ok (a : A)
| Raise (e : Exception).

Arguments Ok {A} a.
Arguments Raise {A} e.

Definition rbind {A B} (r : Result A) (k : A -> Result B) : Result B :=
  match r with
  | Ok a => k a
  | Raise e => Raise e
  end.

Notation "x <-? r ;; k" := (rbind r (fun x => k))
  (at level 61, r at next level, right associativity).

(** [[f(x) for x in xs]]: the first exception aborts the comprehension. *)
Fixpoint comprehension {A B} (f : A -> Result B) (xs : list A) : Result (list B) :=
  match xs with
  | [] => Ok []
  | x :: xs' =>
      y <-? f x ;;
      ys <-? comprehension f xs' ;;
      Ok (y :: ys)
  end.

(** Messages of the exceptions that can be raised. *)
Definition msg_not_divisible : string :=
  "Embed dimension is not divisible with amoutn of heads".
Definition msg_negative_dimension : string :=
  "Trying to create tensor with negative dimension".
Definition msg_shape_mismatch : string :=
  "mat1 and mat2 shapes cannot be multiplied".
Definition msg_bmm_mismatch : string :=
  "batch1 and batch2 must have matching batch and contracted sizes".
Definition msg_cat_empty : string :=
  "torch.cat(): expected a non-empty list of Tensors".
Definition msg_cat_mismatch : string :=
  "Sizes of tensors must match except in dimension 2".
Definition msg_dropout_range : string :=
  "dropout probability has to be between 0 and 1".
Definition msg_not_a_parameter : string :=
  "parameter of the wrong rank or missing".

(** ** Tensors *)

Abbreviation row := (list R) (only parsing).
Abbreviation matrix := (list (list R)) (only parsing).

Record Tensor : Type := mkTensor {
  size0 : nat;
  size1 : nat;
  size2 : nat;
  data : list matrix
}.

Definition size (t : Tensor) : nat * nat * nat := (size0 t, size1 t, size2 t).

Definition wf_row (c : nat) (r : row) : bool := Nat.eqb (length r) c.

Definition wf_matrix (r c : nat) (m : matrix) : bool :=
  Nat.eqb (length m) r && forallb (wf_row c) m.

(** The elements of a tensor agree with its sizes. *)
Definition wf_tensor (t : Tensor) : bool :=
  Nat.eqb (length (data t)) (size0 t)
  && forallb (wf_matrix (size1 t) (size2 t)) (data t).

(** A parameter is a rank-2 weight (rows, columns) or a rank-1 bias. *)
Inductive Param : Type :=
| P2 (rows cols : nat) (w : matrix)
| P1 (len : nat) (b : row).

(** *** Matrix arithmetic *)

Definition sum (r : row) : R := fold_right Rplus 0%R r.

Definition map2 {A B C} (f : A -> B -> C) (l1 : list A) (l2 : list B) : list C :=
  map (fun p => f (fst p) (snd p)) (combine l1 l2).

Definition dot (u v : row) : R := sum (map2 Rmult u v).

Definition column (j : nat) (m : matrix) : row :=
  map (fun r => nth j r 0%R) m.

(** Transpose of a matrix with [c] columns. *)
Definition transpose_matrix (c : nat) (m : matrix) : matrix :=
  map (fun j => column j m) (seq 0 c).

(** [a . b] where [b] has [n] columns. *)
Definition matmul (n : nat) (a b : matrix) : matrix :=
  map (fun r => map (dot r) (transpose_matrix n b)) a.

Definition add_row (b : row) (m : matrix) : matrix :=
  map (fun r => map2 Rplus r b) m.

Definition map_matrix (f : R -> R) (m : matrix) : matrix := map (map f) m.

Definition max_list (r : row) : R :=
  match r with
  | [] => 0%R
  | x :: xs => fold_right Rmax x xs
  end.

(** Softmax of one row, stabilised by subtracting the row maximum. *)
Definition softmax_row (r : row) : row :=
  let m := max_list r in
  let e := map (fun x => exp (x - m)) r in
  let s := sum e in
  map (fun y => (y / s)%R) e.

(** *** The torch primitives used by the notebook *)

(** [torch.transpose(t, 1, 2)] *)
Definition torch_transpose_1_2 (t : Tensor) : Tensor :=
  {| size0 := size0 t; size1 := size2 t; size2 := size1 t;
     data := map (transpose_matrix (size2 t)) (data t) |}.

(** [torch.bmm(a, b)] *)
Definition torch_bmm (a b : Tensor) : Result Tensor :=
  if Nat.eqb (size0 a) (size0 b) && Nat.eqb (size2 a) (size1 b) then
    Ok {| size0 := size0 a; size1 := size1 a; size2 := size2 b;
          data := map2 (matmul (size2 b)) (data a) (data b) |}
  else Raise (RuntimeError msg_bmm_mismatch).

(** [t / c] for a non-zero Python float [c].  (In [Attention.forward] the
    divisor is zero only for a head of width zero, whose output has no
    element; the weights themselves are [Attention_inter] below.) *)
Definition tensor_div (t : Tensor) (c : R) : Tensor :=
  {| size0 := size0 t; size1 := size1 t; size2 := size2 t;
     data := map (map_matrix (fun x => (x / c)%R)) (data t) |}.

(** [torch.nn.functional.softmax(t, dim=-1)] *)
Definition F_softmax_last (t : Tensor) : Tensor :=
  {| size0 := size0 t; size1 := size1 t; size2 := size2 t;
     data := map (map softmax_row) (data t) |}.

(** [torch.nn.functional.relu] / [torch.nn.ReLU] *)
Definition relu (x : R) : R := Rmax 0 x.

Definition F_relu (t : Tensor) : Tensor :=
  {| size0 := size0 t; size1 := size1 t; size2 := size2 t;
     data := map (map_matrix relu) (data t) |}.

(** [torch.nn.functional.linear(x, weight, bias)]: [x . weight^T + bias],
    where [weight] has shape (out_features, in_features). *)
Definition F_linear (x : Tensor) (weight : Param) (bias : option Param)
  : Result Tensor :=
  match weight with
  | P2 out_f in_f w =>
      if Nat.eqb (size2 x) in_f then
        let wt := transpose_matrix in_f w in
        match bias with
        | None =>
            Ok {| size0 := size0 x; size1 := size1 x; size2 := out_f;
                  data := map (fun m => matmul out_f m wt) (data x) |}
        | Some (P1 _ b) =>
            Ok {| size0 := size0 x; size1 := size1 x; size2 := out_f;
                  data := map (fun m => add_row b (matmul out_f m wt)) (data x) |}
        | Some (P2 _ _ _) => Raise (RuntimeError msg_not_a_parameter)
        end
      else Raise (RuntimeError msg_shape_mismatch)
  | P1 _ _ => Raise (RuntimeError msg_not_a_parameter)
  end.

(** Concatenation of two tensors along the last axis. *)
Definition cat2 (a b : Tensor) : Result Tensor :=
  if Nat.eqb (size0 a) (size0 b) && Nat.eqb (size1 a) (size1 b) then
    Ok {| size0 := size0 a; size1 := size1 a; size2 := size2 a + size2 b;
          data := map2 (map2 (@app R)) (data a) (data b) |}
  else Raise (RuntimeError msg_cat_mismatch).

(** [torch.cat(ts, dim=-1)] *)
Definition torch_cat_last (ts : list Tensor) : Result Tensor :=
  match ts with
  | [] => Raise (ValueError msg_cat_empty)
  | t :: rest => fold_left (fun acc u => a <-? acc ;; cat2 a u) rest (Ok t)
  end.

(** ** Floating-point special values *)

(** A float: a finite value, an infinity or NaN. *)
Inductive Float : Type :=
| Fin (r : R)
| PInf
| NInf
| NaN.

Record FloatTensor : Type := mkFloatTensor {
  fsize0 : nat;
  fsize1 : nat;
  fsize2 : nat;
  fdata : list (list (list Float))
}.

(** [x / c] for finite [x] and [c]: a zero divisor gives NaN for a zero
    dividend and a signed infinity otherwise. *)
Definition float_div (x c : R) : Float :=
  if Req_dec_T c 0 then
    if Req_dec_T x 0 then NaN
    else if Rlt_dec 0 x then PInf else NInf
  else Fin (x / c).

(** [t / c] for a tensor of finite elements and a Python float [c] *)
Definition tensor_div_float (t : Tensor) (c : R) : FloatTensor :=
  {| fsize0 := size0 t; fsize1 := size1 t; fsize2 := size2 t;
     fdata := map (map (map (fun x => float_div x c))) (data t) |}.

Definition is_Fin (f : Float) : bool :=
  match f with Fin _ => true | _ => false end.

Definition is_NaN_or_PInf (f : Float) : bool :=
  match f with NaN | PInf => true | _ => false end.

Definition finite_values (r : list Float) : list R :=
  flat_map (fun f => match f with Fin v => [v] | _ => [] end) r.

(** Softmax of one row of floats.  A NaN or a positive infinity in the row,
    or a row of negative infinities only, makes every entry NaN (the
    maximum is subtracted first); otherwise a negative infinity gets the
    weight zero. *)
Definition float_softmax_row (r : list Float) : list Float :=
  if existsb is_NaN_or_PInf r || negb (existsb is_Fin r) then
    map (fun _ => NaN) r
  else
    let m := max_list (finite_values r) in
    let e := map (fun f => match f with
                           | Fin v => exp (v - m)
                           | _ => 0%R
                           end) r in
    let s := sum e in
    map (fun y => Fin (y / s)) e.

(** [torch.nn.functional.softmax(t, dim=-1)] on floats *)
Definition F_softmax_last_float (t : FloatTensor) : FloatTensor :=
  {| fsize0 := fsize0 t; fsize1 := fsize1 t; fsize2 := fsize2 t;
     fdata := map (map float_softmax_row) (fdata t) |}.

(** ** The store and the state monad *)

(** The parameter store ([heap], a location is an index into it) and
    torch's global random generator: the stream [rng] of uniform draws
    from [0, 1) and the number [rng_pos] of draws consumed so far. *)
Record State : Type := mkState {
  heap : list Param;
  rng : nat -> R;
  rng_pos : nat
}.

Definition M (A : Type) : Type := State -> Result A * State.

Definition ret {A} (a : A) : M A := fun st => (Ok a, st).

Definition raise {A} (e : Exception) : M A := fun st => (Raise e, st).

Definition bind {A B} (m : M A) (k : A -> M B) : M B :=
  fun st =>
    match m st with
    | (Ok a, st') => k a st'
    | (Raise e, st') => (Raise e, st')
    end.

Notation "x <- m ;; k" := (bind m (fun x => k))
  (at level 61, m at next level, right associativity).

(** A pure computation that reads the store. *)
Definition read {A} (f : list Param -> Result A) : M A :=
  fun st => (f (heap st), st).

Definition alloc (p : Param) : M nat :=
  fun st =>
    (Ok (length (heap st)),
     {| heap := heap st ++ [p]; rng := rng st; rng_pos := rng_pos st |}).

Definition lookup (h : list Param) (loc : nat) : Result Param :=
  match nth_error h loc with
  | Some p => Ok p
  | None => Raise (RuntimeError msg_not_a_parameter)
  end.

(** [n] draws from the uniform distribution on [lo, hi). *)
Definition draws (gen : nat -> R) (pos n : nat) (lo hi : R) : row :=
  map (fun k => (lo + gen (pos + k)%nat * (hi - lo))%R) (seq 0 n).

Definition uniform1 (n : nat) (lo hi : R) : M row :=
  fun st =>
    (Ok (draws (rng st) (rng_pos st) n lo hi),
     {| heap := heap st; rng := rng st; rng_pos := rng_pos st + n |}).

Definition uniform2 (r c : nat) (lo hi : R) : M matrix :=
  fun st =>
    (Ok (map (fun i => draws (rng st) (rng_pos st + i * c) c lo hi) (seq 0 r)),
     {| heap := heap st; rng := rng st; rng_pos := rng_pos st + r * c |}).

(** ** Python arithmetic *)

(** Python's [a / b] on ints is the double nearest to the exact quotient
    (ties to even); it raises [ZeroDivisionError] on a zero divisor and
    [OverflowError] when that double would be infinite. *)

(** The integer nearest to [n / d], ties to even, for [0 <= n], [0 < d]. *)
Definition round_half_even (n d : Z) : Z :=
  let f := (n / d)%Z in
  match (2 * (n mod d) ?= d)%Z with
  | Lt => f
  | Gt => (f + 1)%Z
  | Eq => if Z.even f then f else (f + 1)%Z
  end.

(** The exponent [k] with [2^k <= n / d < 2^(k+1)], for [0 < n], [0 < d]. *)
Definition log2_ratio (n d : Z) : Z :=
  let e := (Z.log2 n - Z.log2 d)%Z in
  if (0 <=? e)%Z then (if (n <? d * 2 ^ e)%Z then e - 1 else e)%Z
  else (if (n * 2 ^ (- e) <? d)%Z then e - 1 else e)%Z.

(** The double nearest to [n / d] as (mantissa, exponent), of value
    [mantissa * 2^exponent]: 53 bits of mantissa, exponent at least -1074. *)
Definition double_of_ratio (n d : Z) : Z * Z :=
  let s := Z.max (log2_ratio n d - 52) (-1074) in
  let m := if (0 <=? s)%Z then round_half_even n (d * 2 ^ s)
           else round_half_even (n * 2 ^ (- s)) d in
  (m, s).

(** [int(a / b)]: [int] truncates the double toward zero. *)
Definition int_truediv (a b : Z) : Result Z :=
  if (b =? 0)%Z then Raise ZeroDivisionError
  else if (a =? 0)%Z then Ok 0%Z
  else
    let (m, s) := double_of_ratio (Z.abs a) (Z.abs b) in
    if (0 <=? s)%Z && (2 ^ 1024 <=? m * 2 ^ s)%Z then Raise OverflowError
    else Ok (Z.sgn a * Z.sgn b
             * (if (0 <=? s)%Z then m * 2 ^ s else m / 2 ^ (- s)))%Z.

Definition py_int_truediv (a b : Z) : M Z :=
  fun st => (int_truediv a b, st).

(** [assert c, msg] *)
Definition py_assert (c : bool) (msg : string) : M unit :=
  if c then ret tt else raise (AssertionError msg).

(** [math.sqrt(n)] for a non-negative int *)
Definition math_sqrt (n : nat) : R := sqrt (INR n).

(** ** torch.nn.Linear *)

Record Linear : Type := mkLinear {
  in_features : nat;
  out_features : nat;
  weight : nat;
  bias : option nat
}.

(** Bound of the default initialisation, [1 / sqrt(fan_in)]. *)
Definition init_bound (fan_in : nat) : R :=
  if Nat.eqb fan_in 0 then 0%R else (1 / sqrt (INR fan_in))%R.

(** [torch.nn.Linear(in_features, out_features, bias)]: allocating a tensor
    with a negative size raises; a size of zero is accepted. *)
Definition Linear_init (in_f out_f : Z) (with_bias : bool) : M Linear :=
  if Z.ltb in_f 0 || Z.ltb out_f 0 then
    raise (RuntimeError msg_negative_dimension)
  else
    let i := Z.to_nat in_f in
    let o := Z.to_nat out_f in
    let bound := init_bound i in
    w <- uniform2 o i (- bound) bound ;;
    wloc <- alloc (P2 o i w) ;;
    if with_bias then
      b <- uniform1 o (- bound) bound ;;
      bloc <- alloc (P1 o b) ;;
      ret {| in_features := i; out_features := o;
             weight := wloc; bias := Some bloc |}
    else
      ret {| in_features := i; out_features := o;
             weight := wloc; bias := None |}.

Definition Linear_forward (h : list Param) (self : Linear) (x : Tensor)
  : Result Tensor :=
  w <-? lookup h (weight self) ;;
  match bias self with
  | None => F_linear x w None
  | Some bloc => b <-? lookup h bloc ;; F_linear x w (Some b)
  end.

(** ** class Attention *)

Record Attention : Type := mkAttention {
  weightQ : Linear;
  weightK : Linear;
  weightV : Linear
}.

Definition Attention_init (d_model d_k : Z) : M Attention :=
  q <- Linear_init d_model d_k false ;;
  k <- Linear_init d_model d_k false ;;
  v <- Linear_init d_model d_k false ;;
  ret {| weightQ := q; weightK := k; weightV := v |}.

(** The value bound to [inter] in [Attention.forward]: the attention
    weights, after the softmax and before the product with [value].  The
    scores are divided by [math.sqrt(query.size(dim=2))], which is zero for
    a head of width zero, so the weights are [Float]s. *)
Definition Attention_inter (h : list Param) (self : Attention) (incoming : Tensor)
  : Result FloatTensor :=
  query <-? Linear_forward h (weightQ self) incoming ;;
  key <-? Linear_forward h (weightK self) incoming ;;
  value <-? Linear_forward h (weightV self) incoming ;;
  scores <-? torch_bmm query (torch_transpose_1_2 key) ;;
  Ok (F_softmax_last_float (tensor_div_float scores (math_sqrt (size2 query)))).

Definition Attention_forward (h : list Param) (self : Attention) (incoming : Tensor)
  : Result Tensor :=
  query <-? Linear_forward h (weightQ self) incoming ;;
  key <-? Linear_forward h (weightK self) incoming ;;
  value <-? Linear_forward h (weightV self) incoming ;;
  scores <-? torch_bmm query (torch_transpose_1_2 key) ;;
  let inter := F_softmax_last (tensor_div scores (math_sqrt (size2 query))) in
  torch_bmm inter value.

(** ** class MultiHeadAttention *)

Record MultiHeadAttention : Type := mkMultiHeadAttention {
  d_k : Z;
  d_model : Z;
  heads : list Attention;
  out_lin_layer : Linear
}.

(** [[x] * n] for a Python int [n]: no element when [n] is negative. *)
Definition py_list_repeat {A} (x : A) (n : Z) : list A := repeat x (Z.to_nat n).

Definition MultiHeadAttention_init (d_model n_heads : Z) : M MultiHeadAttention :=
  d_k <- py_int_truediv d_model n_heads ;;
  _ <- py_assert (Z.eqb (d_k * n_heads) d_model) msg_not_divisible ;;
  head <- Attention_init d_model d_k ;;
  let heads := py_list_repeat head n_heads in
  out <- Linear_init d_model d_model true ;;
  ret {| d_k := d_k; d_model := d_model; heads := heads; out_lin_layer := out |}.

Definition MultiHeadAttention_forward (h : list Param) (self : MultiHeadAttention)
    (incoming : Tensor) : Result Tensor :=
  outs <-? comprehension (fun x => Attention_forward h x incoming) (heads self) ;;
  concat_out <-? torch_cat_last outs ;;
  Linear_forward h (out_lin_layer self) concat_out.

(** ** class FullyConnectedFeedForwardNetwork *)

(** The modules placed in the [torch.nn.Sequential].  A dropout module
    carries its own [training] flag, [True] after construction. *)
Inductive Layer : Type :=
| LLinear (l : Linear)
| LReLU
| LDropout (p : Q) (training : bool).

Record FullyConnectedFeedForwardNetwork : Type := mkFFN {
  model : list Layer
}.

(** [torch.nn.Dropout(p)]: raises when [p < 0 or p > 1]. *)
Definition Dropout_init (p : Q) : M Layer :=
  if negb (Qle_bool 0 p) || negb (Qle_bool p 1) then
    raise (ValueError msg_dropout_range)
  else ret (LDropout p true).

Definition FullyConnectedFeedForwardNetwork_init
    (d_model d_hidden : Z) (dropout_prob : Q)
  : M FullyConnectedFeedForwardNetwork :=
  l1 <- Linear_init d_model d_hidden true ;;
  l2 <- Linear_init d_hidden d_model true ;;
  d <- Dropout_init dropout_prob ;;
  ret {| model := [LLinear l1; LReLU; LLinear l2; d] |}.

Definition mapi {A B} (f : nat -> A -> B) (l : list A) : list B :=
  map2 f (seq 0 (length l)) l.

(** One element under dropout: kept with probability [1 - p] and rescaled,
    zeroed otherwise; [u] is the uniform draw that decides. *)
Definition dropout_elem (u p v : R) : R :=
  if Rlt_dec u (1 - p) then (v / (1 - p))%R else 0%R.

Definition dropout_data (gen : nat -> R) (pos : nat) (p : R) (t : Tensor)
  : list matrix :=
  mapi (fun i m =>
    mapi (fun j r =>
      mapi (fun k v =>
        dropout_elem (gen (pos + (i * size1 t + j) * size2 t + k)) p v) r) m)
    (data t).

(** [torch.zeros_like(x)] *)
Definition zeros_like (x : Tensor) : Tensor :=
  {| size0 := size0 x; size1 := size1 x; size2 := size2 x;
     data := map (map (map (fun _ => 0%R))) (data x) |}.

(** [torch.nn.functional.dropout(x, p, training)]: outside training, and
    for [p = 0], the input is returned as it is; for [p = 1] the result is
    all zeros; in both cases nothing is drawn. *)
Definition F_dropout (x : Tensor) (p : Q) (training : bool) : M Tensor :=
  if training then
    if Qeq_bool p 0 then ret x
    else if Qeq_bool p 1 then ret (zeros_like x)
    else
      fun st =>
        (Ok {| size0 := size0 x; size1 := size1 x; size2 := size2 x;
               data := dropout_data (rng st) (rng_pos st) (Q2R p) x |},
         {| heap := heap st; rng := rng st;
            rng_pos := rng_pos st + size0 x * size1 x * size2 x |})
  else ret x.

Definition Layer_forward (l : Layer) (x : Tensor) : M Tensor :=
  match l with
  | LLinear lin => read (fun h => Linear_forward h lin x)
  | LReLU => ret (F_relu x)
  | LDropout p training => F_dropout x p training
  end.

(** [torch.nn.Sequential.forward]: the modules in order. *)
Fixpoint Sequential_forward (layers : list Layer) (x : Tensor) : M Tensor :=
  match layers with
  | [] => ret x
  | l :: rest => y <- Layer_forward l x ;; Sequential_forward rest y
  end.

Definition FullyConnectedFeedForwardNetwork_forward
    (self : FullyConnectedFeedForwardNetwork) (incoming : Tensor) : M Tensor :=
  Sequential_forward (model self) incoming.

(** [torch.nn.Module.eval()] and [train()]: set the mode of every submodule. *)
Definition Layer_set_training (mode : bool) (l : Layer) : Layer :=
  match l with
  | LDropout p _ => LDropout p mode
  | _ => l
  end.

Definition FullyConnectedFeedForwardNetwork_train
    (self : FullyConnectedFeedForwardNetwork) (mode : bool)
  : FullyConnectedFeedForwardNetwork :=
  {| model := map (Layer_set_training mode) (model self) |}.

Definition FullyConnectedFeedForwardNetwork_eval
    (self : FullyConnectedFeedForwardNetwork) : FullyConnectedFeedForwardNetwork :=
  FullyConnectedFeedForwardNetwork_train self false.

(** ** The algorithms as the specification words them *)

(** Scaled dot-product attention of one batch entry [x] (seq_len rows of
    model_dim features) with projection matrices of shape
    (model_dim, head_dim): softmax(Q K^T / sqrt(head_dim)) V. *)
Definition spec_attention_weights (W_q W_k : matrix) (head_dim : nat) (x : matrix)
  : matrix :=
  let query := matmul head_dim x W_q in
  let key := matmul head_dim x W_k in
  let scores := matmul (length x) query (transpose_matrix head_dim key) in
  let scaled := map_matrix (fun s => (s * (1 / sqrt (INR head_dim)))%R) scores in
  map softmax_row scaled.

Definition spec_attention (W_q W_k W_v : matrix) (head_dim : nat) (x : matrix)
  : matrix :=
  let value := matmul head_dim x W_v in
  matmul head_dim (spec_attention_weights W_q W_k head_dim x) value.

(** Position-wise feed-forward of one batch entry, without the dropout:
    ReLU(x W1 + b1) W2 + b2. *)
Definition spec_ffn_hidden (W1 : matrix) (b1 : row) (hidden_dim : nat) (x : matrix)
  : matrix :=
  map_matrix relu (add_row b1 (matmul hidden_dim x W1)).

Definition spec_ffn (W1 : matrix) (b1 : row) (W2 : matrix) (b2 : row)
    (hidden_dim model_dim : nat) (x : matrix) : matrix :=
  add_row b2 (matmul model_dim (spec_ffn_hidden W1 b1 hidden_dim x) W2).

(** ** Reading a module's parameters *)

(** The weight matrix (out_features rows, in_features columns) and the
    bias vector that a [Linear] module finds in the store. *)
Definition weight_of (h : list Param) (l : Linear) : matrix :=
  match nth_error h (weight l) with
  | Some (P2 _ _ w) => w
  | _ => []
  end.

Definition bias_of (h : list Param) (l : Linear) : row :=
  match bias l with
  | Some bloc =>
      match nth_error h bloc with
      | Some (P1 _ b) => b
      | _ => []
      end
  | None => []
  end.

(** The projection matrix of shape (in_features, out_features) that the
    module multiplies its input with: the transpose of its weight. *)
Definition projection_of (h : list Param) (l : Linear) : matrix :=
  transpose_matrix (in_features l) (weight_of h l).

(** The store holds parameters of the declared shapes for [l]. *)
Definition Linear_ok (h : list Param) (l : Linear) : Prop :=
  (exists w, nth_error h (weight l) = Some (P2 (out_features l) (in_features l) w)
             /\ wf_matrix (out_features l) (in_features l) w = true)
  /\ match bias l with
     | None => True
     | Some bloc =>
         exists b, nth_error h bloc = Some (P1 (out_features l) b)
                   /\ length b = out_features l
     end.

Definition Attention_ok (h : list Param) (a : Attention) : Prop :=
  Linear_ok h (weightQ a) /\ Linear_ok h (weightK a) /\ Linear_ok h (weightV a).

(** The three projections of a head are bias-free and map [dm] features
    to [dk] features. *)
Definition Attention_dims (a : Attention) (dm dk : nat) : Prop :=
  Forall (fun l => in_features l = dm /\ out_features l = dk /\ bias l = None)
         [weightQ a; weightK a; weightV a].

(** The parameter locations of a head: query, key, value weights. *)
Definition Attention_storage (a : Attention) : list nat :=
  [weight (weightQ a); weight (weightK a); weight (weightV a)].

(** The tensors that the specification's feed-forward formulas give for
    the input [x] and the parameters of the layers [l1] and [l2]. *)
Definition ffn_hidden_tensor (h : list Param) (l1 : Linear) (x : Tensor) : Tensor :=
  {| size0 := size0 x; size1 := size1 x; size2 := out_features l1;
     data := map (spec_ffn_hidden (projection_of h l1) (bias_of h l1)
                    (out_features l1)) (data x) |}.

Definition ffn_output_tensor (h : list Param) (l1 l2 : Linear) (x : Tensor)
  : Tensor :=
  {| size0 := size0 x; size1 := size1 x; size2 := out_features l2;
     data := map (spec_ffn (projection_of h l1) (bias_of h l1)
                    (projection_of h l2) (bias_of h l2)
                    (out_features l1) (out_features l2)) (data x) |}.

(** A fresh interpreter: empty store, a generator that draws zeros. *)
Definition st0 : State := {| heap := []; rng := fun _ => 0%R; rng_pos := 0 |}.

(** A tensor of the given sizes filled with zeros, [torch.zeros]. *)
Definition torch_zeros (b s d : nat) : Tensor :=
  {| size0 := b; size1 := s; size2 := d;
     data := repeat (repeat (repeat 0%R d) s) b |}.

(** The objects that the notebook's three example cells construct in a
    fresh interpreter: [Attention(512, int(512/8))], [MultiHeadAttention()]
    and [FullyConnectedFeedForwardNetwork()], each on its own. *)
Definition example_head : Attention :=
  {| weightQ := mkLinear 512 64 0 None;
     weightK := mkLinear 512 64 1 None;
     weightV := mkLinear 512 64 2 None |}.

Definition example_multi_h : MultiHeadAttention :=
  {| d_k := 64; d_model := 512;
     heads := [example_head; example_head; example_head; example_head;
               example_head; example_head; example_head; example_head];
     out_lin_layer := mkLinear 512 512 3 (Some 4) |}.

Definition example_ffn : FullyConnectedFeedForwardNetwork :=
  {| model := [LLinear (mkLinear 512 2048 0 (Some 1)); LReLU;
               LLinear (mkLinear 2048 512 2 (Some 3)); LDropout (1 # 2) true] |}.

(** The states in which the three constructions leave the interpreter. *)
Definition st_head : State := snd (Attention_init 512 64 st0).
Definition st_multi_h : State := snd (MultiHeadAttention_init 512 8 st0).
Definition st_ffn : State :=
  snd (FullyConnectedFeedForwardNetwork_init 512 2048 (1 # 2) st0).

(** ** The notebook's example cells *)

(** Each cell constructs a module, calls [forward] on the tensor drawn by
    [torch.randn((16, 1, 512))] and shows [ret.size()].  The drawn tensor
    is the argument [input]. *)
Definition cell_attention (input : Tensor) : M (nat * nat * nat) :=
  d <- py_int_truediv 512 8 ;;
  test <- Attention_init 512 d ;;
  r <- read (fun h => Attention_forward h test input) ;;
  ret (size r).

Definition cell_multi_h (input : Tensor) : M (nat * nat * nat) :=
  multi_h <- MultiHeadAttention_init 512 8 ;;
  r <- read (fun h => MultiHeadAttention_forward h multi_h input) ;;
  ret (size r).

Definition cell_ffn (input : Tensor) : M (nat * nat * nat) :=
  ffn <- FullyConnectedFeedForwardNetwork_init 512 2048 (1 # 2) ;;
  r <- FullyConnectedFeedForwardNetwork_forward ffn input ;;
  ret (size r).

(** ** Notions used to state further properties *)


(** Number of scalars of a stored parameter. *)
Definition numel (p : Param) : nat :=
  match p with
  | P2 r c _ => r * c
  | P1 n _ => n
  end.

(** [st'] is [st] after some allocations and draws: the store has only
    grown at its end and the generator has only advanced. *)
Definition store_extends (st st' : State) : Prop :=
  (exists t, heap st' = heap st ++ t)
  /\ rng st' = rng st
  /\ rng_pos st <= rng_pos st'.

(** What the feed-forward network without dropout does to one position
    (one row of [model_dim] features). *)
Definition spec_ffn_row (W1 : matrix) (b1 : row) (W2 : matrix) (b2 : row)
    (hidden_dim model_dim : nat) (r : row) : row :=
  let hidden :=
    map relu (map2 Rplus (map (dot r) (transpose_matrix hidden_dim W1)) b1) in
  map2 Rplus (map (dot hidden) (transpose_matrix model_dim W2)) b2.

(** The output row of the position with features [r] when it attends over
    the positions [m] of one batch entry: its query is scored against the
    key of every row of [m], and the softmax of the scaled scores weighs
    the values of the rows of [m]. *)
Definition attention_row (W_q W_k W_v : matrix) (head_dim : nat) (m : matrix)
    (r : row) : row :=
  let q := map (dot r) (transpose_matrix head_dim W_q) in
  let key := fun rj : row => map (dot rj) (transpose_matrix head_dim W_k) in
  let value := fun rj : row => map (dot rj) (transpose_matrix head_dim W_v) in
  let scores :=
    map (fun rj => (dot q (key rj) * (1 / sqrt (INR head_dim)))%R) m in
  let w := softmax_row scores in
  map (fun k => dot w (map (fun rj => nth k (value rj) 0%R) m)) (seq 0 head_dim).

(** A small head, [Attention(2, 1)] in a fresh interpreter, and two inputs
    of one batch entry whose two positions are exchanged. *)
Definition small_head : Attention :=
  {| weightQ := mkLinear 2 1 0 None;
     weightK := mkLinear 2 1 1 None;
     weightV := mkLinear 2 1 2 None |}.

Definition st_small_head : State := snd (Attention_init 2 1 st0).

Definition two_positions : Tensor :=
  mkTensor 1 2 2 [[[1%R; 0%R]; [0%R; 1%R]]].

Definition two_positions_swapped : Tensor :=
  mkTensor 1 2 2 [[[0%R; 1%R]; [1%R; 0%R]]].

(** ** Attention weights as floats, and the float32 range *)

(** The attention weights of one batch entry, with the division by
    [sqrt(head_dim)] and the softmax on floats. *)
Definition float_attention_weights (W_q W_k : matrix) (head_dim : nat)
    (x : matrix) : list (list Float) :=
  let query := matmul head_dim x W_q in
  let key := matmul head_dim x W_k in
  let scores := matmul (length x) query (transpose_matrix head_dim key) in
  map float_softmax_row
      (map (map (fun s => float_div s (sqrt (INR head_dim)))) scores).











(** * Properties *)

(** ** Lists and shapes *)

Lemma length_map2 {A B C} (f : A -> B -> C) l1 l2 :
  length (map2 f l1 l2) = Nat.min (length l1) (length l2).
Proof. unfold map2. now rewrite length_map, length_combine. Qed.

Lemma map2_map_map {A B C D} (h : B -> C -> D) (f : A -> B) (g : A -> C) l :
  map2 h (map f l) (map g l) = map (fun x => h (f x) (g x)) l.
Proof.
  unfold map2. induction l as [|x l IH]; simpl; [reflexivity|].
  now rewrite IH.
Qed.

Lemma Forall_map2 {A B C} (P : C -> Prop) (f : A -> B -> C) l1 l2 :
  (forall x y, In x l1 -> In y l2 -> P (f x y)) ->
  Forall P (map2 f l1 l2).
Proof.
  unfold map2. intros H. apply Forall_forall. intros z Hz.
  apply in_map_iff in Hz. destruct Hz as [[x y] [<- Hin]].
  simpl. apply H; [eapply in_combine_l | eapply in_combine_r]; eassumption.
Qed.

Lemma wf_matrix_iff r c m :
  wf_matrix r c m = true <->
  length m = r /\ Forall (fun x => length x = c) m.
Proof.
  unfold wf_matrix, wf_row. rewrite andb_true_iff, Nat.eqb_eq, forallb_forall,
    Forall_forall.
  split; intros [H1 H2]; split; auto; intros x Hx; apply Nat.eqb_eq; auto.
Qed.

Lemma wf_tensor_iff t :
  wf_tensor t = true <->
  length (data t) = size0 t /\
  Forall (fun m => wf_matrix (size1 t) (size2 t) m = true) (data t).
Proof.
  unfold wf_tensor. rewrite andb_true_iff, Nat.eqb_eq, forallb_forall,
    Forall_forall. tauto.
Qed.

Lemma length_transpose_matrix c m : length (transpose_matrix c m) = c.
Proof. unfold transpose_matrix. now rewrite length_map, length_seq. Qed.

Lemma wf_transpose_matrix c m :
  wf_matrix c (length m) (transpose_matrix c m) = true.
Proof.
  apply wf_matrix_iff. split; [apply length_transpose_matrix|].
  unfold transpose_matrix, column. apply Forall_forall. intros x Hx.
  apply in_map_iff in Hx. destruct Hx as [j [<- _]]. apply length_map.
Qed.

Lemma wf_matmul n a b : wf_matrix (length a) n (matmul n a b) = true.
Proof.
  apply wf_matrix_iff. unfold matmul. split; [apply length_map|].
  apply Forall_forall. intros x Hx. apply in_map_iff in Hx.
  destruct Hx as [r [<- _]]. now rewrite length_map, length_transpose_matrix.
Qed.

Lemma wf_add_row r c b m :
  length b = c -> wf_matrix r c m = true -> wf_matrix r c (add_row b m) = true.
Proof.
  rewrite !wf_matrix_iff. intros Hb [Hl Hr]. unfold add_row. split.
  - now rewrite length_map.
  - apply Forall_forall. intros x Hx. apply in_map_iff in Hx.
    destruct Hx as [y [<- Hy]]. rewrite length_map2, Hb.
    rewrite Forall_forall in Hr. rewrite (Hr _ Hy). apply Nat.min_id.
Qed.

Lemma wf_map_matrix f r c m :
  wf_matrix r c m = true -> wf_matrix r c (map_matrix f m) = true.
Proof.
  rewrite !wf_matrix_iff. intros [Hl Hr]. unfold map_matrix. split.
  - now rewrite length_map.
  - apply Forall_forall. intros x Hx. apply in_map_iff in Hx.
    destruct Hx as [y [<- Hy]]. rewrite length_map.
    rewrite Forall_forall in Hr. now apply Hr.
Qed.

Lemma length_softmax_row r : length (softmax_row r) = length r.
Proof. unfold softmax_row. now rewrite !length_map. Qed.

Lemma wf_map_softmax r c m :
  wf_matrix r c m = true -> wf_matrix r c (map softmax_row m) = true.
Proof.
  rewrite !wf_matrix_iff. intros [Hl Hr]. split.
  - now rewrite length_map.
  - apply Forall_forall. intros x Hx. apply in_map_iff in Hx.
    destruct Hx as [y [<- Hy]]. rewrite length_softmax_row.
    rewrite Forall_forall in Hr. now apply Hr.
Qed.

Lemma wf_map2_app r c1 c2 m1 m2 :
  wf_matrix r c1 m1 = true -> wf_matrix r c2 m2 = true ->
  wf_matrix r (c1 + c2) (map2 (@app R) m1 m2) = true.
Proof.
  rewrite !wf_matrix_iff. intros [Hl1 Hr1] [Hl2 Hr2]. split.
  - rewrite length_map2, Hl1, Hl2. apply Nat.min_id.
  - rewrite Forall_forall in Hr1, Hr2. apply Forall_map2. intros x y Hx Hy.
    rewrite length_app. now rewrite (Hr1 _ Hx), (Hr2 _ Hy).
Qed.

(** A tensor built by mapping a shape-preserving function over the batch. *)
Lemma wf_tensor_map (f : matrix -> matrix) t s1 s2 :
  wf_tensor t = true ->
  (forall m, wf_matrix (size1 t) (size2 t) m = true ->
             wf_matrix s1 s2 (f m) = true) ->
  wf_tensor {| size0 := size0 t; size1 := s1; size2 := s2;
               data := map f (data t) |} = true.
Proof.
  rewrite !wf_tensor_iff. simpl. intros [Hl Hm] Hf. split.
  - now rewrite length_map.
  - apply Forall_forall. intros y Hy. apply in_map_iff in Hy.
    destruct Hy as [m [<- Hin]]. apply Hf.
    rewrite Forall_forall in Hm. now apply Hm.
Qed.

(** ** Construction of [Linear] *)

Lemma wf_uniform2 gen pos r c lo hi :
  wf_matrix r c (map (fun i => draws gen (pos + i * c) c lo hi) (seq 0 r)) = true.
Proof.
  apply wf_matrix_iff. split.
  - now rewrite length_map, length_seq.
  - apply Forall_forall. intros x Hx. apply in_map_iff in Hx.
    destruct Hx as [i [<- _]]. unfold draws. now rewrite length_map, length_seq.
Qed.

Lemma Linear_ok_app h t l : Linear_ok h l -> Linear_ok (h ++ t) l.
Proof.
  intros [[w [Hw Hwf]] Hb]. split.
  - exists w. split; [|exact Hwf]. rewrite nth_error_app1; [exact Hw|].
    apply nth_error_Some. congruence.
  - destruct (bias l) as [bloc|]; [|exact I].
    destruct Hb as [b [Hb Hlen]]. exists b. split; [|exact Hlen].
    rewrite nth_error_app1; [exact Hb|]. apply nth_error_Some. congruence.
Qed.

Lemma Linear_init_negative i o wb st :
  (i < 0 \/ o < 0)%Z ->
  Linear_init i o wb st = (Raise (RuntimeError msg_negative_dimension), st).
Proof.
  intros H. unfold Linear_init.
  assert (Hc : (Z.ltb i 0 || Z.ltb o 0) = true).
  { apply orb_true_iff. rewrite !Z.ltb_lt. exact H. }
  now rewrite Hc.
Qed.

(** What a successful [Linear] construction returns and does to the store. *)
Lemma Linear_init_inv i o wb st l st' :
  Linear_init i o wb st = (Ok l, st') ->
  (0 <= i)%Z /\ (0 <= o)%Z
  /\ in_features l = Z.to_nat i /\ out_features l = Z.to_nat o
  /\ weight l = length (heap st)
  /\ bias l = (if wb then Some (S (length (heap st))) else None)
  /\ Linear_ok (heap st') l
  /\ (exists t, heap st' = heap st ++ t /\ length t = if wb then 2 else 1)
  /\ rng st' = rng st.
Proof.
  unfold Linear_init.
  destruct (Z.ltb i 0 || Z.ltb o 0) eqn:Hc; [discriminate|].
  apply orb_false_iff in Hc. rewrite !Z.ltb_ge in Hc. destruct Hc as [Hi Ho].
  destruct wb; unfold bind, uniform2, uniform1, alloc, ret; simpl;
    intros H; inversion H; subst; clear H; simpl;
    (split; [assumption|]); (split; [assumption|]);
    (split; [reflexivity|]); (split; [reflexivity|]); (split; [reflexivity|]).
  - split; [rewrite length_app; simpl; f_equal; lia|].
    split; [split; simpl|split; [|reflexivity]].
    + eexists. split; [|apply wf_uniform2].
      rewrite <- app_assoc. rewrite nth_error_app2 by lia.
      now rewrite Nat.sub_diag.
    + eexists. split.
      * rewrite nth_error_app2 by lia. now rewrite Nat.sub_diag.
      * unfold draws. now rewrite length_map, length_seq.
    + eexists. split; [now rewrite <- app_assoc|reflexivity].
  - split; [reflexivity|].
    split; [split; [|exact I]|split; [|reflexivity]].
    + eexists. split; [|apply wf_uniform2].
      simpl. rewrite nth_error_app2 by lia. now rewrite Nat.sub_diag.
    + eexists. split; reflexivity.
Qed.

Lemma Linear_init_succeeds i o wb st :
  (0 <= i)%Z -> (0 <= o)%Z ->
  exists l st', Linear_init i o wb st = (Ok l, st').
Proof.
  intros Hi Ho. unfold Linear_init.
  assert (Hc : (Z.ltb i 0 || Z.ltb o 0) = false).
  { apply orb_false_iff. rewrite !Z.ltb_ge. now split. }
  rewrite Hc. destruct wb; unfold bind, uniform2, uniform1, alloc, ret; simpl;
    eexists; eexists; reflexivity.
Qed.

(** ** The state monad *)

Lemma bind_Ok_inv {A B} (m : M A) (k : A -> M B) st b st' :
  bind m k st = (Ok b, st') ->
  exists a st1, m st = (Ok a, st1) /\ k a st1 = (Ok b, st').
Proof.
  unfold bind. destruct (m st) as [[a|e] st1]; [|discriminate].
  intros H. now exists a, st1.
Qed.

Lemma bind_Ok {A B} (m : M A) (k : A -> M B) st a st1 :
  m st = (Ok a, st1) -> bind m k st = k a st1.
Proof. unfold bind. now intros ->. Qed.

Lemma bind_Raise {A B} (m : M A) (k : A -> M B) st e st1 :
  m st = (Raise e, st1) -> bind m k st = (Raise e, st1).
Proof. unfold bind. now intros ->. Qed.

(** ** Forward pass of [Linear] *)

Lemma Linear_forward_nobias h l x :
  Linear_ok h l -> bias l = None -> size2 x = in_features l ->
  Linear_forward h l x =
  Ok {| size0 := size0 x; size1 := size1 x; size2 := out_features l;
        data := map (fun m => matmul (out_features l) m (projection_of h l))
                    (data x) |}.
Proof.
  intros [[w [Hw _]] _] Hb Hs.
  unfold Linear_forward, lookup, projection_of, weight_of.
  rewrite Hw, Hb. simpl. rewrite Hs, Nat.eqb_refl. reflexivity.
Qed.

Lemma Linear_forward_bias h l x bloc :
  Linear_ok h l -> bias l = Some bloc -> size2 x = in_features l ->
  Linear_forward h l x =
  Ok {| size0 := size0 x; size1 := size1 x; size2 := out_features l;
        data := map (fun m => add_row (bias_of h l)
                                (matmul (out_features l) m (projection_of h l)))
                    (data x) |}.
Proof.
  intros [[w [Hw _]] Hbias] Hb Hs.
  unfold Linear_forward, lookup, projection_of, weight_of, bias_of.
  rewrite Hb in Hbias |- *. destruct Hbias as [b [Hbl _]].
  rewrite Hw, Hbl. simpl. rewrite Hs, Nat.eqb_refl. reflexivity.
Qed.

Lemma length_bias_of h l bloc :
  Linear_ok h l -> bias l = Some bloc -> length (bias_of h l) = out_features l.
Proof.
  intros [_ Hbias] Hb. unfold bias_of. rewrite Hb in Hbias |- *.
  destruct Hbias as [b [-> Hlen]]. exact Hlen.
Qed.

(** An input whose trailing size is not [in_features] is refused. *)
Lemma Linear_forward_mismatch h l x :
  Linear_ok h l -> size2 x <> in_features l ->
  Linear_forward h l x = Raise (RuntimeError msg_shape_mismatch).
Proof.
  intros [[w [Hw _]] Hbias] Hs. apply Nat.eqb_neq in Hs.
  unfold Linear_forward, lookup. rewrite Hw. simpl.
  destruct (bias l) as [bloc|].
  - destruct Hbias as [b [-> _]]. simpl. now rewrite Hs.
  - simpl. now rewrite Hs.
Qed.

Lemma wf_Linear_forward h l x y :
  Linear_ok h l -> wf_tensor x = true -> Linear_forward h l x = Ok y ->
  size y = (size0 x, size1 x, out_features l) /\ wf_tensor y = true.
Proof.
  intros Hok Hwf Hy.
  destruct (Nat.eq_dec (size2 x) (in_features l)) as [Hs|Hs];
    [|rewrite (Linear_forward_mismatch _ _ _ Hok Hs) in Hy; discriminate].
  destruct (bias l) as [bloc|] eqn:Hb.
  - rewrite (Linear_forward_bias _ _ _ _ Hok Hb Hs) in Hy. inversion Hy; subst; clear Hy.
    split; [reflexivity|].
    apply (wf_tensor_map (fun m => add_row (bias_of h l)
             (matmul (out_features l) m (projection_of h l))) x); [exact Hwf|].
    intros m Hm. apply wf_add_row; [eapply length_bias_of; eassumption|].
    apply wf_matrix_iff in Hm. destruct Hm as [<- _]. apply wf_matmul.
  - rewrite (Linear_forward_nobias _ _ _ Hok Hb Hs) in Hy. inversion Hy; subst; clear Hy.
    split; [reflexivity|].
    apply (wf_tensor_map (fun m => matmul (out_features l) m (projection_of h l)) x);
      [exact Hwf|].
    intros m Hm. apply wf_matrix_iff in Hm. destruct Hm as [<- _]. apply wf_matmul.
Qed.

(** ** Construction of [Attention] *)

Lemma Attention_init_inv d_model d_k st a st' :
  Attention_init d_model d_k st = (Ok a, st') ->
  (0 <= d_model)%Z /\ (0 <= d_k)%Z
  /\ Attention_ok (heap st') a
  /\ Attention_dims a (Z.to_nat d_model) (Z.to_nat d_k)
  /\ Attention_storage a =
       [length (heap st); S (length (heap st)); S (S (length (heap st)))]
  /\ (exists t, heap st' = heap st ++ t /\ length t = 3)
  /\ rng st' = rng st.
Proof.
  unfold Attention_init. intros H.
  apply bind_Ok_inv in H. destruct H as (q & s1 & Hq & H).
  apply bind_Ok_inv in H. destruct H as (k & s2 & Hk & H).
  apply bind_Ok_inv in H. destruct H as (v & s3 & Hv & H).
  unfold ret in H. inversion H; subst; clear H.
  apply Linear_init_inv in Hq, Hk, Hv.
  destruct Hq as (Hi & Ho & Hqi & Hqo & Hqw & Hqb & Hqok & (t1 & Ht1 & Hl1) & Hr1).
  destruct Hk as (_ & _ & Hki & Hko & Hkw & Hkb & Hkok & (t2 & Ht2 & Hl2) & Hr2).
  destruct Hv as (_ & _ & Hvi & Hvo & Hvw & Hvb & Hvok & (t3 & Ht3 & Hl3) & Hr3).
  split; [exact Hi|]. split; [exact Ho|]. split; [|split; [|split; [|split]]].
  - unfold Attention_ok. simpl. rewrite Ht3, Ht2. split; [|split].
    + rewrite <- app_assoc. now apply Linear_ok_app.
    + apply Linear_ok_app. now rewrite <- Ht2.
    + now rewrite <- Ht2, <- Ht3.
  - unfold Attention_dims. simpl. repeat constructor; assumption.
  - unfold Attention_storage. simpl. rewrite Hqw, Hkw, Hvw, Ht2, Ht1.
    rewrite !length_app, Hl1, Hl2. repeat f_equal; lia.
  - exists (t1 ++ t2 ++ t3). split.
    + rewrite Ht3, Ht2, Ht1. now rewrite <- !app_assoc.
    + rewrite !length_app. lia.
  - congruence.
Qed.

Lemma Attention_init_succeeds d_model d_k st :
  (0 <= d_model)%Z -> (0 <= d_k)%Z ->
  exists a st', Attention_init d_model d_k st = (Ok a, st').
Proof.
  intros Hm Hk. unfold Attention_init.
  destruct (Linear_init_succeeds d_model d_k false st Hm Hk) as (q & s1 & Hq).
  destruct (Linear_init_succeeds d_model d_k false s1 Hm Hk) as (k & s2 & Hk').
  destruct (Linear_init_succeeds d_model d_k false s2 Hm Hk) as (v & s3 & Hv).
  rewrite (bind_Ok _ _ _ _ _ Hq), (bind_Ok _ _ _ _ _ Hk'), (bind_Ok _ _ _ _ _ Hv).
  eexists. eexists. reflexivity.
Qed.

Lemma Attention_init_negative d_model d_k st :
  (d_model < 0 \/ d_k < 0)%Z ->
  Attention_init d_model d_k st = (Raise (RuntimeError msg_negative_dimension), st).
Proof.
  intros H. unfold Attention_init.
  now rewrite (bind_Raise _ _ _ _ _ (Linear_init_negative d_model d_k false st H)).
Qed.

(** ** Forward pass of [Attention] *)

Lemma Rdiv_as_scale (x c : R) : (x / c = x * (1 / c))%R.
Proof. unfold Rdiv. ring. Qed.

Lemma wf_tensor_rows t m :
  wf_tensor t = true -> In m (data t) -> length m = size1 t.
Proof.
  intros Hwf Hin. apply wf_tensor_iff in Hwf. destruct Hwf as [_ Hm].
  rewrite Forall_forall in Hm. specialize (Hm _ Hin).
  apply wf_matrix_iff in Hm. tauto.
Qed.

(** The attention weights and the output of a head, batch entry by batch
    entry, are those of the specification's formula. *)
Lemma Attention_forward_eq h a x dm dk :
  Attention_ok h a -> Attention_dims a dm dk ->
  wf_tensor x = true -> size2 x = dm ->
  Attention_inter h a x =
    Ok {| fsize0 := size0 x; fsize1 := size1 x; fsize2 := size1 x;
          fdata := map (float_attention_weights (projection_of h (weightQ a))
                          (projection_of h (weightK a)) dk) (data x) |}
  /\ Attention_forward h a x =
    Ok {| size0 := size0 x; size1 := size1 x; size2 := dk;
          data := map (spec_attention (projection_of h (weightQ a))
                         (projection_of h (weightK a))
                         (projection_of h (weightV a)) dk) (data x) |}.
Proof.
  intros (Hq & Hk & Hv) Hd Hwf Hs. unfold Attention_dims in Hd.
  inversion Hd as [|? ? (Hqi & Hqo & Hqb) Hd1]; subst.
  inversion Hd1 as [|? ? (Hki & Hko & Hkb) Hd2]; subst.
  inversion Hd2 as [|? ? (Hvi & Hvo & Hvb) _]; subst.
  assert (Hinter :
    forall m, In m (data x) ->
      map softmax_row
        (map_matrix (fun s => (s / math_sqrt (out_features (weightQ a)))%R)
           (matmul (size1 x)
              (matmul (out_features (weightQ a)) m (projection_of h (weightQ a)))
              (transpose_matrix (out_features (weightQ a))
                 (matmul (out_features (weightQ a)) m
                    (projection_of h (weightK a))))))
      = spec_attention_weights (projection_of h (weightQ a))
          (projection_of h (weightK a)) (out_features (weightQ a)) m).
  { intros m Hin. unfold spec_attention_weights, math_sqrt, map_matrix.
    rewrite (wf_tensor_rows _ _ Hwf Hin). f_equal.
    apply map_ext. intros r. apply map_ext. intros s. apply Rdiv_as_scale. }
  unfold Attention_inter, Attention_forward.
  rewrite (Linear_forward_nobias _ _ _ Hq Hqb (eq_sym Hqi)).
  rewrite (Linear_forward_nobias _ _ _ Hk Hkb (eq_sym Hki)).
  rewrite (Linear_forward_nobias _ _ _ Hv Hvb (eq_sym Hvi)).
  rewrite Hko, Hvo.
  unfold torch_bmm, torch_transpose_1_2, F_softmax_last, tensor_div,
    F_softmax_last_float, tensor_div_float.
  cbn [rbind size0 size1 size2 data fsize0 fsize1 fsize2 fdata].
  rewrite !Nat.eqb_refl.
  cbn [andb rbind size0 size1 size2 data fsize0 fsize1 fsize2 fdata].
  rewrite !Nat.eqb_refl. cbn [andb].
  rewrite ?map_map, ?map2_map_map, ?map_map, ?map2_map_map, ?map_map.
  split; apply f_equal.
  - apply (f_equal (mkFloatTensor _ _ _)).
    apply map_ext_in. intros m Hin. unfold float_attention_weights, math_sqrt.
    now rewrite (wf_tensor_rows _ _ Hwf Hin).
  - apply (f_equal (mkTensor _ _ _)).
    apply map_ext_in. intros m Hin. unfold spec_attention.
    now rewrite <- (Hinter m Hin).
Qed.

Lemma wf_spec_attention_weights Wq Wk dk m :
  wf_matrix (length m) (length m) (spec_attention_weights Wq Wk dk m) = true.
Proof.
  unfold spec_attention_weights. apply wf_map_softmax, wf_map_matrix.
  pose proof (wf_matmul (length m) (matmul dk m Wq)
                (transpose_matrix dk (matmul dk m Wk))) as H.
  unfold matmul at 1 in H. rewrite length_map in H. exact H.
Qed.

Lemma wf_spec_attention Wq Wk Wv dk m :
  wf_matrix (length m) dk (spec_attention Wq Wk Wv dk m) = true.
Proof.
  unfold spec_attention.
  pose proof (wf_matmul dk (spec_attention_weights Wq Wk dk m) (matmul dk m Wv)) as H.
  pose proof (wf_spec_attention_weights Wq Wk dk m) as Hw.
  apply wf_matrix_iff in Hw. destruct Hw as [Hl _]. now rewrite Hl in H.
Qed.

(** ** Softmax *)






(** ** Comprehensions and concatenation *)

Lemma comprehension_Forall2 {A B} (f : A -> Result B) (l : list A) :
  (forall a, In a l -> exists b, f a = Ok b) ->
  exists outs, comprehension f l = Ok outs
               /\ Forall2 (fun a b => f a = Ok b) l outs.
Proof.
  induction l as [|a l IH]; intros H; simpl.
  - exists []. split; [reflexivity|constructor].
  - destruct (H a (or_introl eq_refl)) as [b Hb].
    destruct IH as [outs [Ho HF]]; [intros a' Ha'; apply H; now right|].
    exists (b :: outs). rewrite Hb, Ho. simpl. split; [reflexivity|].
    now constructor.
Qed.

Lemma comprehension_Raise {A B} (f : A -> Result B) (a : A) (l : list A) e :
  f a = Raise e -> comprehension f (a :: l) = Raise e.
Proof. intros H. simpl. now rewrite H. Qed.

Lemma nth_map2 {A B C} (f : A -> B -> C) l1 l2 i d1 d2 d :
  i < length l1 -> i < length l2 ->
  nth i (map2 f l1 l2) d = f (nth i l1 d1) (nth i l2 d2).
Proof.
  unfold map2. revert l2 i.
  induction l1 as [|x l1 IH]; intros [|y l2] [|i] H1 H2; simpl in *; try lia.
  - reflexivity.
  - apply IH; lia.
Qed.

Lemma wf_tensor_nth t i :
  wf_tensor t = true -> i < size0 t ->
  wf_matrix (size1 t) (size2 t) (nth i (data t) []) = true.
Proof.
  intros Hwf Hi. apply wf_tensor_iff in Hwf. destruct Hwf as [Hl Hm].
  rewrite Forall_forall in Hm. apply Hm, nth_In. lia.
Qed.

Lemma cat2_ok a b :
  wf_tensor a = true -> wf_tensor b = true ->
  size0 b = size0 a -> size1 b = size1 a ->
  exists c, cat2 a b = Ok c
    /\ size c = (size0 a, size1 a, size2 a + size2 b)
    /\ wf_tensor c = true
    /\ forall i j, i < size0 a -> j < size1 a ->
         nth j (nth i (data c) []) [] =
         nth j (nth i (data a) []) [] ++ nth j (nth i (data b) []) [].
Proof.
  intros Ha Hb H0 H1. unfold cat2. rewrite H0, H1, !Nat.eqb_refl. simpl.
  eexists. split; [reflexivity|]. split; [reflexivity|].
  pose proof Ha as Ha'. pose proof Hb as Hb'.
  apply wf_tensor_iff in Ha', Hb'. destruct Ha' as [Hla Hma], Hb' as [Hlb Hmb].
  rewrite Forall_forall in Hma, Hmb. split.
  - apply wf_tensor_iff. simpl. split.
    + rewrite length_map2. lia.
    + apply Forall_map2. intros m1 m2 Hm1 Hm2. apply wf_map2_app; auto.
      rewrite <- H1. auto.
  - intros i j Hi Hj. simpl.
    rewrite (nth_map2 _ _ _ _ [] [] []) by lia.
    pose proof (wf_tensor_nth a i Ha Hi) as Wa.
    assert (Hib : i < size0 b) by lia.
    pose proof (wf_tensor_nth b i Hb Hib) as Wb.
    apply wf_matrix_iff in Wa, Wb.
    apply (nth_map2 _ _ _ _ [] [] []); lia.
Qed.

(** Concatenating [rest] onto [acc], left to right. *)
Lemma fold_cat2_ok rest : forall acc pre,
  wf_tensor acc = true ->
  Forall (fun u => wf_tensor u = true /\ size0 u = size0 acc
                   /\ size1 u = size1 acc) rest ->
  (forall i j, i < size0 acc -> j < size1 acc ->
     nth j (nth i (data acc) []) [] =
     concat (map (fun o => nth j (nth i (data o) []) []) pre)) ->
  size2 acc = list_sum (map size2 pre) ->
  exists c, fold_left (fun r u => a <-? r ;; cat2 a u) rest (Ok acc) = Ok c
    /\ size c = (size0 acc, size1 acc, list_sum (map size2 (pre ++ rest)))
    /\ wf_tensor c = true
    /\ forall i j, i < size0 acc -> j < size1 acc ->
         nth j (nth i (data c) []) [] =
         concat (map (fun o => nth j (nth i (data o) []) []) (pre ++ rest)).
Proof.
  induction rest as [|u rest IH]; intros acc pre Hwf HF Hrows Hs2.
  - exists acc. rewrite app_nil_r. simpl. unfold size. rewrite Hs2. auto.
  - inversion HF as [|? ? (Hu & Hu0 & Hu1) HF']; subst.
    destruct (cat2_ok acc u Hwf Hu Hu0 Hu1) as (c & Hc & Hsz & Hcwf & Hcr).
    assert (Hc0 : size0 c = size0 acc) by (unfold size in Hsz; congruence).
    assert (Hc1 : size1 c = size1 acc) by (unfold size in Hsz; congruence).
    assert (Hc2 : size2 c = size2 acc + size2 u) by (unfold size in Hsz; congruence).
    destruct (IH c (pre ++ [u])) as (c' & Hc' & Hsz' & Hwf' & Hr').
    + exact Hcwf.
    + eapply Forall_impl; [|exact HF']. simpl. intros t (? & ? & ?).
      rewrite Hc0, Hc1. auto.
    + rewrite Hc0, Hc1. intros i j Hi Hj.
      rewrite (Hcr i j Hi Hj), map_app, concat_app, (Hrows i j Hi Hj).
      simpl. now rewrite app_nil_r.
    + rewrite Hc2, Hs2, map_app, list_sum_app. simpl. lia.
    + exists c'. simpl. rewrite Hc. rewrite <- app_assoc in Hsz', Hr'.
      simpl in Hsz', Hr'. rewrite Hc0, Hc1 in Hsz', Hr'.
      split; [exact Hc'|]. split; [exact Hsz'|]. split; [exact Hwf'|exact Hr'].
Qed.

Lemma torch_cat_last_ok t rest :
  wf_tensor t = true ->
  Forall (fun u => wf_tensor u = true /\ size0 u = size0 t
                   /\ size1 u = size1 t) rest ->
  exists c, torch_cat_last (t :: rest) = Ok c
    /\ size c = (size0 t, size1 t, list_sum (map size2 (t :: rest)))
    /\ wf_tensor c = true
    /\ forall i j, i < size0 t -> j < size1 t ->
         nth j (nth i (data c) []) [] =
         concat (map (fun o => nth j (nth i (data o) []) []) (t :: rest)).
Proof.
  intros Hwf HF. apply (fold_cat2_ok rest t [t] Hwf HF).
  - intros i j _ _. simpl. now rewrite app_nil_r.
  - simpl. lia.
Qed.

(** ** Construction of [MultiHeadAttention] *)

Lemma Attention_ok_app h t a : Attention_ok h a -> Attention_ok (h ++ t) a.
Proof.
  intros (Hq & Hk & Hv). repeat split; now apply Linear_ok_app.
Qed.

(** *** [int(a / b)] *)

Lemma round_half_even_exact q d :
  (0 < d)%Z -> round_half_even (q * d) d = q.
Proof.
  intros Hd. unfold round_half_even.
  rewrite Z.div_mul, Z.mod_mul by lia.
  destruct d; try lia. reflexivity.
Qed.

Lemma round_half_even_le n d :
  (0 <= n)%Z -> (0 < d)%Z -> (round_half_even n d <= n / d + 1)%Z.
Proof.
  intros Hn Hd. unfold round_half_even.
  destruct (2 * (n mod d) ?= d)%Z; try lia.
  destruct (Z.even (n / d)); lia.
Qed.

Lemma log2_ratio_le n d :
  (0 < n)%Z -> (0 < d)%Z -> (n < 2 ^ 53 * d)%Z -> (log2_ratio n d <= 52)%Z.
Proof.
  intros Hn Hd Hlt. unfold log2_ratio.
  assert (He : (Z.log2 n - Z.log2 d <= 53)%Z).
  { assert (H1 : (Z.log2 n <= Z.log2 (d * 2 ^ 53))%Z)
      by (apply Z.log2_le_mono; lia).
    rewrite Z.log2_mul_pow2 in H1 by lia. lia. }
  destruct (0 <=? Z.log2 n - Z.log2 d)%Z eqn:H0.
  - destruct (Z.ltb_spec n (d * 2 ^ (Z.log2 n - Z.log2 d))); [lia|].
    destruct (Z.eq_dec (Z.log2 n - Z.log2 d) 53) as [E|E]; [|lia].
    rewrite E in *. lia.
  - apply Z.leb_gt in H0.
    destruct (n * 2 ^ (- (Z.log2 n - Z.log2 d)) <? d)%Z; lia.
Qed.

(** An exact quotient below 2^53 in magnitude is computed exactly. *)
Lemma int_truediv_exact b c :
  b <> 0%Z -> (Z.abs c < 2 ^ 53)%Z -> int_truediv (c * b) b = Ok c.
Proof.
  intros Hb Hc. unfold int_truediv.
  destruct (Z.eqb_spec b 0) as [|_]; [contradiction|].
  destruct (Z.eqb_spec (c * b) 0) as [H0|H0].
  - f_equal. nia.
  - assert (Hc0 : c <> 0%Z) by (intros ->; lia).
    unfold double_of_ratio.
    set (n := Z.abs (c * b)). set (d := Z.abs b).
    assert (Hn : n = (Z.abs c * d)%Z) by (unfold n, d; apply Z.abs_mul).
    assert (Hd : (0 < d)%Z) by (unfold d; lia).
    assert (Hk : (log2_ratio n d <= 52)%Z) by (apply log2_ratio_le; nia).
    set (s := Z.max (log2_ratio n d - 52) (-1074)).
    assert (Hs : (s <= 0)%Z) by (unfold s; lia).
    assert (Hs' : (-1074 <= s)%Z) by (unfold s; lia).
    assert (Hsgn : (Z.sgn (c * b) * Z.sgn b * Z.abs c = c)%Z).
    { rewrite Z.sgn_mul.
      replace (Z.sgn c * Z.sgn b * Z.sgn b)%Z
        with (Z.sgn c * (Z.sgn b * Z.sgn b))%Z by ring.
      assert (H : (Z.sgn b * Z.sgn b = 1)%Z) by (destruct b; simpl; lia).
      rewrite H, Z.mul_1_r. rewrite Z.mul_comm. apply Z.abs_sgn. }
    destruct (Z.leb_spec 0 s) as [Hs0|Hs0].
    + assert (H : s = 0%Z) by lia. rewrite H. change (2 ^ 0)%Z with 1%Z.
      rewrite !Z.mul_1_r, Hn, round_half_even_exact by lia.
      destruct (Z.leb_spec (2 ^ 1024) (Z.abs c)) as [Hov|_].
      * exfalso.
        assert ((2 ^ 53 < 2 ^ 1024)%Z) by (apply Z.pow_lt_mono_r; lia). lia.
      * simpl. now rewrite Hsgn.
    + simpl.
      assert (Hp : (0 < 2 ^ (- s))%Z) by (apply Z.pow_pos_nonneg; lia).
      replace (n * 2 ^ (- s))%Z with ((Z.abs c * 2 ^ (- s)) * d)%Z
        by (rewrite Hn; ring).
      rewrite round_half_even_exact by lia.
      rewrite Z.div_mul by lia. now rewrite Hsgn.
Qed.

(** A dividend below 2^53 in magnitude never overflows. *)
Lemma int_truediv_in_range a b :
  b <> 0%Z -> (Z.abs a < 2 ^ 53)%Z -> exists d, int_truediv a b = Ok d.
Proof.
  intros Hb Ha. unfold int_truediv.
  destruct (Z.eqb_spec b 0) as [|_]; [contradiction|].
  destruct (Z.eqb_spec a 0) as [H0|H0]; [now exists 0%Z|].
  unfold double_of_ratio.
  set (n := Z.abs a). set (d := Z.abs b).
  assert (Hn : (0 < n)%Z) by (unfold n; lia).
  assert (Hd : (0 < d)%Z) by (unfold d; lia).
  assert (Hk : (log2_ratio n d <= 52)%Z) by (apply log2_ratio_le; nia).
  set (s := Z.max (log2_ratio n d - 52) (-1074)).
  assert (Hs : (s <= 0)%Z) by (unfold s; lia).
  destruct (Z.leb_spec 0 s) as [Hs0|Hs0].
  - assert (H : s = 0%Z) by lia. rewrite H. change (2 ^ 0)%Z with 1%Z.
    rewrite !Z.mul_1_r.
    destruct (Z.leb_spec (2 ^ 1024) (round_half_even n d)) as [Hov|_].
    + exfalso. pose proof (round_half_even_le n d) as Hr.
      assert ((n / d <= n)%Z) by (apply Z.div_le_upper_bound; nia).
      assert ((2 ^ 53 + 1 < 2 ^ 1024)%Z) by (vm_compute; reflexivity).
      lia.
    + simpl. eexists. reflexivity.
  - simpl. eexists. reflexivity.
Qed.

(** A quotient that multiplies back to the dividend is the exact one. *)
Lemma quot_of_product d n dm :
  n <> 0%Z -> (d * n = dm)%Z -> d = Z.quot dm n.
Proof. intros Hn <-. symmetry. now apply Z.quot_mul. Qed.

Lemma MultiHeadAttention_init_zero_heads d_model st :
  MultiHeadAttention_init d_model 0 st = (Raise ZeroDivisionError, st).
Proof. reflexivity. Qed.

(** The construction fails on the assertion whenever the computed head
    width does not multiply back to [d_model]. *)
Lemma MultiHeadAttention_init_assertion dm n st d :
  int_truediv dm n = Ok d -> (d * n <> dm)%Z ->
  MultiHeadAttention_init dm n st =
  (Raise (AssertionError msg_not_divisible), st).
Proof.
  intros Hd Hne. unfold MultiHeadAttention_init, py_int_truediv.
  unfold bind at 1. rewrite Hd. unfold bind at 1, py_assert.
  apply Z.eqb_neq in Hne. now rewrite Hne.
Qed.

Lemma MultiHeadAttention_init_not_divisible d_model n_heads st :
  n_heads <> 0%Z -> (Z.abs d_model < 2 ^ 53)%Z ->
  (Z.quot d_model n_heads * n_heads <> d_model)%Z ->
  MultiHeadAttention_init d_model n_heads st =
  (Raise (AssertionError msg_not_divisible), st).
Proof.
  intros Hn Hb Hd.
  destruct (int_truediv_in_range d_model n_heads Hn Hb) as [d Hdiv].
  apply (MultiHeadAttention_init_assertion _ _ _ d Hdiv).
  intros Hmul. apply Hd. now rewrite <- (quot_of_product d n_heads d_model Hn Hmul).
Qed.

Lemma MultiHeadAttention_init_inv dm n_heads st mha st' :
  MultiHeadAttention_init dm n_heads st = (Ok mha, st') ->
  n_heads <> 0%Z
  /\ d_k mha = Z.quot dm n_heads
  /\ d_model mha = dm
  /\ (d_k mha * n_heads = dm)%Z
  /\ exists head s1,
       Attention_init dm (d_k mha) st = (Ok head, s1)
       /\ heads mha = py_list_repeat head n_heads
       /\ Linear_init dm dm true s1 = (Ok (out_lin_layer mha), st').
Proof.
  unfold MultiHeadAttention_init. intros H.
  apply bind_Ok_inv in H. destruct H as (dk & s0 & Hdk & H).
  unfold py_int_truediv in Hdk. inversion Hdk as [[Hdiv Hs0]]; subst s0.
  assert (Hn : n_heads <> 0%Z).
  { intros ->. unfold int_truediv in Hdiv. simpl in Hdiv. discriminate. }
  apply bind_Ok_inv in H. destruct H as ([] & s0' & Has & H).
  unfold py_assert in Has.
  destruct (Z.eqb (dk * n_heads) dm) eqn:Hd; [|discriminate].
  unfold ret in Has. inversion Has; subst; clear Has.
  apply Z.eqb_eq in Hd.
  apply bind_Ok_inv in H. destruct H as (head & s1 & Hhead & H).
  apply bind_Ok_inv in H. destruct H as (out & s2 & Hout & H).
  unfold ret in H. inversion H; subst; clear H. simpl.
  split; [exact Hn|]. split; [now apply quot_of_product|].
  split; [reflexivity|]. split; [reflexivity|].
  exists head, s1. auto.
Qed.

Lemma MultiHeadAttention_init_succeeds d_model n_heads st :
  (0 < n_heads)%Z -> (0 <= d_model)%Z ->
  (Z.quot d_model n_heads * n_heads = d_model)%Z ->
  (d_model < 2 ^ 53)%Z ->
  exists mha st', MultiHeadAttention_init d_model n_heads st = (Ok mha, st')
                  /\ d_k mha = Z.quot d_model n_heads.
Proof.
  intros Hn Hm Hd Hb. unfold MultiHeadAttention_init, py_int_truediv.
  assert (Hk : (0 <= Z.quot d_model n_heads)%Z) by (apply Z.quot_pos; lia).
  assert (Hdiv : int_truediv d_model n_heads = Ok (Z.quot d_model n_heads)).
  { rewrite <- Hd at 1. apply int_truediv_exact; [lia|]. nia. }
  unfold bind at 1. rewrite Hdiv. unfold bind at 1, py_assert.
  apply Z.eqb_eq in Hd. rewrite Hd. unfold ret at 1.
  destruct (Attention_init_succeeds d_model _ st Hm Hk) as (a & s1 & Ha).
  destruct (Linear_init_succeeds d_model d_model true s1 Hm Hm) as (o & s2 & Ho).
  rewrite (bind_Ok _ _ _ _ _ Ha), (bind_Ok _ _ _ _ _ Ho).
  eexists. eexists. split; reflexivity.
Qed.

(** A successful construction with a positive [d_model] has a positive
    number of heads and a positive head width. *)
Lemma MultiHeadAttention_init_positive d_model n_heads st mha st' :
  (0 < d_model)%Z ->
  MultiHeadAttention_init d_model n_heads st = (Ok mha, st') ->
  (0 < n_heads)%Z /\ (0 < d_k mha)%Z.
Proof.
  intros Hm H. apply MultiHeadAttention_init_inv in H.
  destruct H as (Hn & Hdk & _ & Hmul & head & s1 & Hhead & _).
  apply Attention_init_inv in Hhead. destruct Hhead as (_ & Hk & _).
  nia.
Qed.

(** ** Forward pass of [MultiHeadAttention] *)

Lemma Forall2_Forall_r {A B} (R : A -> B -> Prop) (P : B -> Prop) l1 l2 :
  Forall2 R l1 l2 -> (forall a b, In a l1 -> R a b -> P b) -> Forall P l2.
Proof.
  induction 1 as [|a b l1 l2 Hab HF IH]; intros H; constructor.
  - apply (H a b); [now left|exact Hab].
  - apply IH. intros a' b' Ha'. apply H. now right.
Qed.

Lemma list_sum_const (l : list Tensor) (c : nat) :
  Forall (fun t => size2 t = c) l -> list_sum (map size2 l) = length l * c.
Proof.
  induction 1 as [|t l Ht _ IH]; simpl; [reflexivity|]. rewrite IH, Ht. lia.
Qed.

Lemma MultiHeadAttention_forward_ok dm n st mha st' x :
  (0 < dm)%Z ->
  MultiHeadAttention_init dm n st = (Ok mha, st') ->
  wf_tensor x = true -> size2 x = Z.to_nat dm ->
  exists outs concat_out y,
    comprehension (fun hd => Attention_forward (heap st') hd x) (heads mha) = Ok outs
    /\ Forall2 (fun hd o => Attention_forward (heap st') hd x = Ok o) (heads mha) outs
    /\ length outs = Z.to_nat n
    /\ Forall (fun o => size o = (size0 x, size1 x, Z.to_nat (d_k mha))
                        /\ wf_tensor o = true) outs
    /\ torch_cat_last outs = Ok concat_out
    /\ size concat_out = (size0 x, size1 x, Z.to_nat dm)
    /\ wf_tensor concat_out = true
    /\ (forall i j, i < size0 x -> j < size1 x ->
          nth j (nth i (data concat_out) []) [] =
          concat (map (fun o => nth j (nth i (data o) []) []) outs))
    /\ Linear_forward (heap st') (out_lin_layer mha) concat_out = Ok y
    /\ MultiHeadAttention_forward (heap st') mha x = Ok y
    /\ size y = (size0 x, size1 x, Z.to_nat dm)
    /\ wf_tensor y = true.
Proof.
  intros Hpos Hinit Hwf Hs.
  destruct (MultiHeadAttention_init_positive _ _ _ _ _ Hpos Hinit) as [Hn Hk].
  apply MultiHeadAttention_init_inv in Hinit.
  destruct Hinit as (_ & Hdk & _ & Hmul & head & s1 & Hhead & Hheads & Hout).
  apply Attention_init_inv in Hhead.
  destruct Hhead as (_ & _ & Hok & Hdims & _ & _ & _).
  apply Linear_init_inv in Hout.
  destruct Hout as (_ & _ & Hoi & Hoo & _ & Hob & Hook & (t & Ht & _) & _).
  assert (Hok' : Attention_ok (heap st') head)
    by (rewrite Ht; now apply Attention_ok_app).
  destruct (Attention_forward_eq _ _ _ _ _ Hok' Hdims Hwf Hs) as [_ Hfwd].
  set (f := fun hd => Attention_forward (heap st') hd x).
  assert (Hin : forall a, In a (heads mha) -> a = head).
  { intros a Ha. rewrite Hheads in Ha. unfold py_list_repeat in Ha.
    now apply repeat_spec in Ha. }
  assert (Hall : forall a, In a (heads mha) -> exists b, f a = Ok b).
  { intros a Ha. rewrite (Hin a Ha). eexists. exact Hfwd. }
  destruct (comprehension_Forall2 f (heads mha) Hall) as (outs & Hcomp & HF2).
  assert (Hlen : length outs = Z.to_nat n).
  { rewrite <- (Forall2_length HF2), Hheads. apply repeat_length. }
  assert (Houts : Forall (fun o => size o = (size0 x, size1 x, Z.to_nat (d_k mha))
                                   /\ wf_tensor o = true) outs).
  { apply (Forall2_Forall_r _ _ _ _ HF2). intros a b Ha Hab.
    rewrite (Hin a Ha) in Hab. unfold f in Hab. rewrite Hfwd in Hab.
    inversion Hab; subst b; clear Hab. split; [reflexivity|].
    apply (wf_tensor_map _ x); [exact Hwf|].
    intros m Hm. apply wf_matrix_iff in Hm. destruct Hm as [<- _].
    apply wf_spec_attention. }
  destruct outs as [|o outs]; [simpl in Hlen; lia|].
  destruct (proj1 (Forall_cons_iff _ _ _) Houts) as [[Ho Howf] Hrest].
  assert (Ho0 : size0 o = size0 x) by (unfold size in Ho; congruence).
  assert (Ho1 : size1 o = size1 x) by (unfold size in Ho; congruence).
  destruct (torch_cat_last_ok o outs Howf) as (c & Hc & Hcs & Hcwf & Hcr).
  { eapply Forall_impl; [|exact Hrest]. simpl. intros u [Hu Huwf].
    unfold size in Hu. split; [exact Huwf|]. split; congruence. }
  assert (Hsum : list_sum (map size2 (o :: outs)) = Z.to_nat dm).
  { rewrite (list_sum_const (o :: outs) (Z.to_nat (d_k mha))).
    - rewrite Hlen, <- Hmul, Z2Nat.inj_mul by lia. lia.
    - eapply Forall_impl; [|exact Houts]. simpl. intros u [Hu _].
      unfold size in Hu. congruence. }
  rewrite Ho0, Ho1, Hsum in Hcs. rewrite Ho0, Ho1 in Hcr.
  assert (Hc2 : size2 c = in_features (out_lin_layer mha))
    by (unfold size in Hcs; congruence).
  pose proof (Linear_forward_bias _ _ c _ Hook Hob Hc2) as Hy.
  destruct (wf_Linear_forward _ _ _ _ Hook Hcwf Hy) as [Hys Hywf].
  exists (o :: outs), c. eexists.
  split; [exact Hcomp|]. split; [exact HF2|]. split; [exact Hlen|].
  split; [exact Houts|]. split; [exact Hc|]. split; [exact Hcs|].
  split; [exact Hcwf|]. split; [exact Hcr|]. split; [exact Hy|].
  split; [|split; [|exact Hywf]].
  - unfold MultiHeadAttention_forward. fold f. rewrite Hcomp. cbn [rbind].
    rewrite Hc. cbn [rbind]. exact Hy.
  - rewrite Hys, Hoo. unfold size in Hcs. congruence.
Qed.

(** ** Construction of [FullyConnectedFeedForwardNetwork] *)

Lemma Dropout_init_ok p st :
  (0 <= p)%Q -> (p <= 1)%Q -> Dropout_init p st = (Ok (LDropout p true), st).
Proof.
  intros H0 H1. unfold Dropout_init.
  apply Qle_bool_iff in H0, H1. now rewrite H0, H1.
Qed.

Lemma Dropout_init_raise p st :
  (p < 0 \/ 1 < p)%Q ->
  Dropout_init p st = (Raise (ValueError msg_dropout_range), st).
Proof.
  intros H. unfold Dropout_init.
  assert (Hc : negb (Qle_bool 0 p) || negb (Qle_bool p 1) = true).
  { apply orb_true_iff. destruct H as [H|H]; [left|right];
      apply negb_true_iff; apply not_true_is_false; rewrite Qle_bool_iff;
      now apply Qlt_not_le. }
  now rewrite Hc.
Qed.

Lemma Dropout_init_inv p st l st' :
  Dropout_init p st = (Ok l, st') ->
  (0 <= p)%Q /\ (p <= 1)%Q /\ l = LDropout p true /\ st' = st.
Proof.
  unfold Dropout_init.
  destruct (Qle_bool 0 p) eqn:H0; [|discriminate].
  destruct (Qle_bool p 1) eqn:H1; [|discriminate].
  simpl. unfold ret. intros H. inversion H.
  apply Qle_bool_iff in H0, H1. auto.
Qed.

Lemma FullyConnectedFeedForwardNetwork_init_inv dm dh p st ffn st' :
  FullyConnectedFeedForwardNetwork_init dm dh p st = (Ok ffn, st') ->
  (0 <= p)%Q /\ (p <= 1)%Q
  /\ exists l1 l2 s1,
       Linear_init dm dh true st = (Ok l1, s1)
       /\ Linear_init dh dm true s1 = (Ok l2, st')
       /\ model ffn = [LLinear l1; LReLU; LLinear l2; LDropout p true].
Proof.
  unfold FullyConnectedFeedForwardNetwork_init. intros H.
  apply bind_Ok_inv in H. destruct H as (l1 & s1 & H1 & H).
  apply bind_Ok_inv in H. destruct H as (l2 & s2 & H2 & H).
  apply bind_Ok_inv in H. destruct H as (d & s3 & Hd & H).
  unfold ret in H. inversion H; subst; clear H.
  apply Dropout_init_inv in Hd. destruct Hd as (Hp0 & Hp1 & -> & ->).
  split; [exact Hp0|]. split; [exact Hp1|]. exists l1, l2, s1. auto.
Qed.

Lemma FullyConnectedFeedForwardNetwork_init_succeeds dm dh p st :
  (0 <= dm)%Z -> (0 <= dh)%Z -> (0 <= p)%Q -> (p <= 1)%Q ->
  exists ffn st', FullyConnectedFeedForwardNetwork_init dm dh p st = (Ok ffn, st').
Proof.
  intros Hm Hh Hp0 Hp1. unfold FullyConnectedFeedForwardNetwork_init.
  destruct (Linear_init_succeeds dm dh true st Hm Hh) as (l1 & s1 & H1).
  destruct (Linear_init_succeeds dh dm true s1 Hh Hm) as (l2 & s2 & H2).
  rewrite (bind_Ok _ _ _ _ _ H1), (bind_Ok _ _ _ _ _ H2).
  rewrite (bind_Ok _ _ _ _ _ (Dropout_init_ok p s2 Hp0 Hp1)).
  eexists. eexists. reflexivity.
Qed.

(** A dropout probability refused by [torch.nn.Dropout] aborts the
    construction after the four parameters of the two linear layers
    have been allocated. *)
Lemma FullyConnectedFeedForwardNetwork_init_dropout_raise dm dh p st :
  (0 <= dm)%Z -> (0 <= dh)%Z -> (p < 0 \/ 1 < p)%Q ->
  exists st', FullyConnectedFeedForwardNetwork_init dm dh p st =
                (Raise (ValueError msg_dropout_range), st')
              /\ exists t, heap st' = heap st ++ t /\ length t = 4.
Proof.
  intros Hm Hh Hp. unfold FullyConnectedFeedForwardNetwork_init.
  destruct (Linear_init_succeeds dm dh true st Hm Hh) as (l1 & s1 & H1).
  destruct (Linear_init_succeeds dh dm true s1 Hh Hm) as (l2 & s2 & H2).
  rewrite (bind_Ok _ _ _ _ _ H1), (bind_Ok _ _ _ _ _ H2).
  rewrite (bind_Raise _ _ _ _ _ (Dropout_init_raise p s2 Hp)).
  exists s2. split; [reflexivity|].
  apply Linear_init_inv in H1, H2.
  destruct H1 as (_ & _ & _ & _ & _ & _ & _ & (t1 & Ht1 & Hl1) & _).
  destruct H2 as (_ & _ & _ & _ & _ & _ & _ & (t2 & Ht2 & Hl2) & _).
  exists (t1 ++ t2). rewrite Ht2, Ht1, <- app_assoc, length_app. split; [reflexivity|lia].
Qed.

Lemma FullyConnectedFeedForwardNetwork_init_negative dm dh p st :
  (dm < 0 \/ dh < 0)%Z ->
  FullyConnectedFeedForwardNetwork_init dm dh p st =
  (Raise (RuntimeError msg_negative_dimension), st).
Proof.
  intros H. unfold FullyConnectedFeedForwardNetwork_init.
  now rewrite (bind_Raise _ _ _ _ _ (Linear_init_negative dm dh true st H)).
Qed.

(** ** Forward pass of [FullyConnectedFeedForwardNetwork] *)

Lemma length_mapi {A B} (f : nat -> A -> B) l : length (mapi f l) = length l.
Proof. unfold mapi. rewrite length_map2, length_seq. apply Nat.min_id. Qed.

Lemma In_mapi {A B} (f : nat -> A -> B) l y :
  In y (mapi f l) -> exists i x, In x l /\ y = f i x.
Proof.
  unfold mapi, map2. intros H. apply in_map_iff in H.
  destruct H as [[i x] [<- Hin]]. exists i, x. split; [|reflexivity].
  eapply in_combine_r. exact Hin.
Qed.

Lemma wf_dropout gen pos p t :
  wf_tensor t = true ->
  wf_tensor {| size0 := size0 t; size1 := size1 t; size2 := size2 t;
               data := dropout_data gen pos p t |} = true.
Proof.
  intros Hwf. pose proof Hwf as Hwf'. apply wf_tensor_iff in Hwf'.
  destruct Hwf' as [Hl Hm]. rewrite Forall_forall in Hm.
  apply wf_tensor_iff. unfold dropout_data. simpl. split.
  - now rewrite length_mapi.
  - apply Forall_forall. intros y Hy. apply In_mapi in Hy.
    destruct Hy as (i & m & Hin & ->). specialize (Hm m Hin).
    apply wf_matrix_iff in Hm. destruct Hm as [Hlm Hrows].
    rewrite Forall_forall in Hrows.
    apply wf_matrix_iff. split; [now rewrite length_mapi|].
    apply Forall_forall. intros z Hz. apply In_mapi in Hz.
    destruct Hz as (j & r & Hr & ->). rewrite length_mapi. now apply Hrows.
Qed.

Lemma wf_zeros_like t : wf_tensor t = true -> wf_tensor (zeros_like t) = true.
Proof.
  intros Hwf. unfold zeros_like. apply (wf_tensor_map _ t); [exact Hwf|].
  intros m Hm. now apply (wf_map_matrix (fun _ => 0%R)).
Qed.

(** In training mode the dropout keeps the shape, whatever branch it takes. *)
Lemma F_dropout_shape x p s :
  wf_tensor x = true ->
  exists y s',
    F_dropout x p true s = (Ok y, s') /\ size y = size x /\ wf_tensor y = true.
Proof.
  intros Hwf. unfold F_dropout.
  destruct (Qeq_bool p 0); [|destruct (Qeq_bool p 1)].
  - exists x, s. now split.
  - exists (zeros_like x), s. split; [reflexivity|].
    split; [reflexivity|now apply wf_zeros_like].
  - eexists. eexists. split; [reflexivity|]. split; [reflexivity|].
    now apply wf_dropout.
Qed.

(** The network computes the specification's two-layer transform and hands
    it to the dropout module. *)
Lemma Sequential_forward_ffn s l1 l2 b1 b2 p mode x :
  Linear_ok (heap s) l1 -> Linear_ok (heap s) l2 ->
  bias l1 = Some b1 -> bias l2 = Some b2 ->
  size2 x = in_features l1 -> out_features l1 = in_features l2 ->
  Sequential_forward [LLinear l1; LReLU; LLinear l2; LDropout p mode] x s =
  F_dropout
    {| size0 := size0 x; size1 := size1 x; size2 := out_features l2;
       data := map (spec_ffn (projection_of (heap s) l1) (bias_of (heap s) l1)
                      (projection_of (heap s) l2) (bias_of (heap s) l2)
                      (out_features l1) (out_features l2)) (data x) |}
    p mode s.
Proof.
  intros Hok1 Hok2 Hb1 Hb2 Hs Hio.
  cbn [Sequential_forward Layer_forward].
  unfold bind at 1, read at 1.
  rewrite (Linear_forward_bias _ _ _ _ Hok1 Hb1 Hs).
  unfold bind at 1, ret at 1. unfold bind at 1, read at 1.
  erewrite Linear_forward_bias; [|exact Hok2|exact Hb2|exact Hio].
  unfold F_relu. cbn [size0 size1 size2 data]. rewrite !map_map.
  unfold bind, spec_ffn, spec_ffn_hidden.
  destruct (F_dropout _ p mode s) as [[y|e] s'] eqn:Hd; reflexivity.
Qed.

(** * The properties of the specification *)

(** ** MultiHeadAttention: construction *)

(** C2. Constructing [MultiHeadAttention] raises the assertion's error,
    with the store untouched (so before any parameter is allocated and
    before any forward pass can be run), whenever
    [head_dim * n_heads <> model_dim], where [head_dim] is the computed
    [int(d_model / n_heads)]; for a [d_model] below 2^53 in magnitude that
    is whenever [n_heads] does not divide [d_model].  When the division
    itself raises, so does the construction.  (512, 7) is refused;
    (512, 8) is accepted with [d_k = 64]. *)
Theorem C2_divisibility_enforced :
  (forall dm n st head_dim,
      int_truediv dm n = Ok head_dim -> (head_dim * n <> dm)%Z ->
      MultiHeadAttention_init dm n st =
      (Raise (AssertionError msg_not_divisible), st))
  /\ (forall dm n st,
         n <> 0%Z -> (Z.abs dm < 2 ^ 53)%Z -> (Z.quot dm n * n <> dm)%Z ->
         MultiHeadAttention_init dm n st =
         (Raise (AssertionError msg_not_divisible), st))
  /\ (forall dm n st e,
         int_truediv dm n = Raise e ->
         MultiHeadAttention_init dm n st = (Raise e, st))
  /\ (forall st,
         MultiHeadAttention_init 512 7 st =
         (Raise (AssertionError msg_not_divisible), st))
  /\ (forall st,
         exists mha st',
           MultiHeadAttention_init 512 8 st = (Ok mha, st')
           /\ d_k mha = 64%Z).
Proof.
  split; [|split; [|split; [|split]]].
  - intros dm n st d. apply MultiHeadAttention_init_assertion.
  - intros dm n st. apply MultiHeadAttention_init_not_divisible.
  - intros dm n st e He. unfold MultiHeadAttention_init, py_int_truediv.
    unfold bind at 1. now rewrite He.
  - intros st. apply MultiHeadAttention_init_not_divisible;
      [discriminate|reflexivity|discriminate].
  - intros st.
    destruct (MultiHeadAttention_init_succeeds 512 8 st) as (mha & st' & H & Hk);
      [reflexivity|discriminate|reflexivity|reflexivity|].
    exists mha, st'. split; [exact H|exact Hk].
Qed.

Lemma C2_divisibility_enforced_witness :
  (int_truediv (2 ^ 53 + 1) 1 = Ok (2 ^ 53)%Z
   /\ (2 ^ 53 * 1 <> 2 ^ 53 + 1)%Z
   /\ MultiHeadAttention_init (2 ^ 53 + 1) 1 st0 =
      (Raise (AssertionError msg_not_divisible), st0))
  /\ ((7 <> 0)%Z /\ (Z.abs 512 < 2 ^ 53)%Z /\ (Z.quot 512 7 * 7 <> 512)%Z
      /\ MultiHeadAttention_init 512 7 st0 =
         (Raise (AssertionError msg_not_divisible), st0))
  /\ (int_truediv (10 ^ 400) 7 = Raise OverflowError
      /\ MultiHeadAttention_init (10 ^ 400) 7 st0 = (Raise OverflowError, st0)).
Proof.
  assert (H1 : int_truediv (2 ^ 53 + 1) 1 = Ok (2 ^ 53)%Z)
    by (vm_compute; reflexivity).
  assert (H2 : (2 ^ 53 * 1 <> 2 ^ 53 + 1)%Z) by discriminate.
  assert (H3 : (7 <> 0)%Z) by discriminate.
  assert (H4 : (Z.abs 512 < 2 ^ 53)%Z) by reflexivity.
  assert (H5 : (Z.quot 512 7 * 7 <> 512)%Z) by discriminate.
  assert (H6 : int_truediv (10 ^ 400) 7 = Raise OverflowError)
    by (vm_compute; reflexivity).
  split; [|split].
  - split; [exact H1|]. split; [exact H2|].
    exact (proj1 C2_divisibility_enforced _ _ st0 _ H1 H2).
  - split; [exact H3|]. split; [exact H4|]. split; [exact H5|].
    exact (proj1 (proj2 C2_divisibility_enforced) 512%Z 7%Z st0 H3 H4 H5).
  - split; [exact H6|].
    exact (proj1 (proj2 (proj2 C2_divisibility_enforced)) _ _ st0 _ H6).
Defined.

(** C10. With [n_heads = 0] the construction raises [ZeroDivisionError]
    from [int(d_model / n_heads)], whatever [d_model] is: the assertion
    that follows is never reached and no [AssertionError] is raised. *)
Theorem C10_zero_heads_division_error (dm : Z) (st : State) :
  MultiHeadAttention_init dm 0 st = (Raise ZeroDivisionError, st)
  /\ py_int_truediv dm 0 st = (Raise ZeroDivisionError, st).
Proof. split; reflexivity. Qed.

(** C1 (the code departs from the claim). The default construction
    [MultiHeadAttention(512, 8)] succeeds with eight entries in [heads],
    and every entry refers to the same three weight locations: the heads
    are one [Attention] object repeated, not eight independent ones.  In a
    fresh interpreter the eight heads all use locations 0, 1 and 2. *)
Theorem C1_heads_share_storage :
  MultiHeadAttention_init 512 8 st0 = (Ok example_multi_h, st_multi_h)
  /\ heads example_multi_h = repeat example_head 8
  /\ map Attention_storage (heads example_multi_h) = repeat [0; 1; 2] 8
  /\ forall st,
       exists mha st',
         MultiHeadAttention_init 512 8 st = (Ok mha, st')
         /\ length (heads mha) = 8
         /\ Forall (fun hd => Attention_storage hd =
                      [length (heap st); S (length (heap st));
                       S (S (length (heap st)))]) (heads mha)
         /\ exists h0 h1, nth_error (heads mha) 0 = Some h0
                          /\ nth_error (heads mha) 1 = Some h1
                          /\ h0 = h1
                          /\ weight (weightQ h0) = weight (weightQ h1)
                          /\ weight (weightK h0) = weight (weightK h1)
                          /\ weight (weightV h0) = weight (weightV h1).
Proof.
  split; [reflexivity|]. split; [reflexivity|]. split; [reflexivity|].
  intros st.
  destruct (MultiHeadAttention_init_succeeds 512 8 st) as (mha & st' & H & Hk);
    [reflexivity|discriminate|reflexivity|reflexivity|].
  exists mha, st'. split; [exact H|].
  apply MultiHeadAttention_init_inv in H.
  destruct H as (_ & _ & _ & _ & head & s1 & Hhead & Hheads & _).
  apply Attention_init_inv in Hhead.
  destruct Hhead as (_ & _ & _ & _ & Hst & _).
  rewrite Hheads. unfold py_list_repeat. simpl repeat.
  split; [reflexivity|]. split.
  - repeat constructor; exact Hst.
  - exists head, head. repeat split; reflexivity.
Qed.

(** ** Attention: construction *)

(** C6 fails as stated: a head of width zero, [Attention(512, 0)], is
    constructed without error although [head_dim <= 0]. *)
Lemma C6_counterexample :
  (0 <= 0 \/ 512 <= 0)%Z
  /\ exists a st', Attention_init 512 0 st0 = (Ok a, st').
Proof.
  split; [left; reflexivity|].
  apply Attention_init_succeeds; discriminate.
Qed.

(** C6, amended. Constructing an attention head raises (the tensor
    allocation's [RuntimeError], store untouched) whenever [head_dim < 0]
    or [model_dim < 0]; for all non-negative dimensions, so for all
    positive ones, the construction succeeds. *)
Theorem C6_attention_construction (dm dk : Z) (st : State) :
  ((dm < 0 \/ dk < 0)%Z ->
     Attention_init dm dk st = (Raise (RuntimeError msg_negative_dimension), st))
  /\ ((0 <= dm)%Z -> (0 <= dk)%Z ->
        exists a st', Attention_init dm dk st = (Ok a, st'))
  /\ ((0 < dm)%Z -> (0 < dk)%Z ->
        exists a st', Attention_init dm dk st = (Ok a, st')).
Proof.
  split; [|split].
  - apply Attention_init_negative.
  - apply Attention_init_succeeds.
  - intros Hm Hk. apply Attention_init_succeeds; lia.
Qed.

Lemma C6_attention_construction_witness :
  ((512 < 0 \/ -1 < 0)%Z
   /\ Attention_init 512 (-1) st0 =
      (Raise (RuntimeError msg_negative_dimension), st0))
  /\ ((0 < 512)%Z /\ (0 < 64)%Z
      /\ exists a st', Attention_init 512 64 st0 = (Ok a, st')).
Proof.
  assert (H1 : (512 < 0 \/ -1 < 0)%Z) by (right; reflexivity).
  assert (H2 : (0 < 512)%Z) by reflexivity.
  assert (H3 : (0 < 64)%Z) by reflexivity.
  split.
  - split; [exact H1|].
    exact (proj1 (C6_attention_construction 512 (-1) st0) H1).
  - split; [exact H2|]. split; [exact H3|].
    exact (proj2 (proj2 (C6_attention_construction 512 64 st0)) H2 H3).
Defined.

(** ** Attention: forward *)

Lemma wf_projection_of h l :
  Linear_ok h l ->
  wf_matrix (in_features l) (out_features l) (projection_of h l) = true.
Proof.
  intros [[w [Hw Hwf]] _]. unfold projection_of, weight_of. rewrite Hw.
  apply wf_matrix_iff in Hwf. destruct Hwf as [<- _]. apply wf_transpose_matrix.
Qed.

(** C3. For a constructed head and an input of shape
    (batch, seq_len, model_dim), [forward] returns, batch entry by batch
    entry, softmax((x W_q)(x W_k)^T * 1/sqrt(head_dim)) (x W_v), where
    W_q, W_k, W_v are three separately stored bias-free projection matrices
    of shape (model_dim, head_dim); the output has shape
    (batch, seq_len, head_dim). *)
Theorem C3_attention_head_forward (dm dk : Z) (st st' : State) (a : Attention)
    (x : Tensor) :
  Attention_init dm dk st = (Ok a, st') ->
  wf_tensor x = true ->
  size2 x = Z.to_nat dm ->
  Attention_dims a (Z.to_nat dm) (Z.to_nat dk)
  /\ NoDup (Attention_storage a)
  /\ Forall (fun l => wf_matrix (Z.to_nat dm) (Z.to_nat dk)
                        (projection_of (heap st') l) = true)
            [weightQ a; weightK a; weightV a]
  /\ exists y,
       Attention_forward (heap st') a x = Ok y
       /\ size y = (size0 x, size1 x, Z.to_nat dk)
       /\ wf_tensor y = true
       /\ data y = map (spec_attention (projection_of (heap st') (weightQ a))
                          (projection_of (heap st') (weightK a))
                          (projection_of (heap st') (weightV a))
                          (Z.to_nat dk)) (data x).
Proof.
  intros Hinit Hwf Hs. apply Attention_init_inv in Hinit.
  destruct Hinit as (_ & _ & Hok & Hdims & Hsto & _ & _).
  split; [exact Hdims|]. split; [|split].
  - rewrite Hsto. repeat constructor; simpl; lia.
  - destruct Hok as (Hq & Hk & Hv). unfold Attention_dims in Hdims.
    pose proof (wf_projection_of _ _ Hq) as Wq.
    pose proof (wf_projection_of _ _ Hk) as Wk.
    pose proof (wf_projection_of _ _ Hv) as Wv.
    inversion Hdims as [|? ? (Hqi & Hqo & _) Hd1].
    inversion Hd1 as [|? ? (Hki & Hko & _) Hd2].
    inversion Hd2 as [|? ? (Hvi & Hvo & _) _].
    rewrite Hqi, Hqo in Wq. rewrite Hki, Hko in Wk. rewrite Hvi, Hvo in Wv.
    repeat constructor; assumption.
  - destruct (Attention_forward_eq _ _ _ _ _ Hok Hdims Hwf Hs) as [_ Hfwd].
    eexists. split; [exact Hfwd|]. split; [reflexivity|]. split; [|reflexivity].
    apply (wf_tensor_map _ x); [exact Hwf|].
    intros m Hm. apply wf_matrix_iff in Hm. destruct Hm as [<- _].
    apply wf_spec_attention.
Qed.

Lemma C3_attention_head_forward_witness :
  Attention_init 512 64 st0 = (Ok example_head, st_head)
  /\ wf_tensor (torch_zeros 16 1 512) = true
  /\ size2 (torch_zeros 16 1 512) = Z.to_nat 512
  /\ exists y,
       Attention_forward (heap st_head) example_head (torch_zeros 16 1 512) = Ok y
       /\ size y = (16, 1, 64).
Proof.
  assert (H : Attention_init 512 64 st0 = (Ok example_head, st_head))
    by reflexivity.
  split; [exact H|]. split; [reflexivity|]. split; [reflexivity|].
  destruct (C3_attention_head_forward 512 64 st0 st_head example_head
              (torch_zeros 16 1 512) H eq_refl eq_refl)
    as (_ & _ & _ & y & Hy & Hsz & _).
  exists y. split; [exact Hy|exact Hsz].
Defined.

(** *** Attention weights as floats *)










(** *** Inputs in the float32 range *)




















(** ** MultiHeadAttention: forward *)

(** C4. For a [MultiHeadAttention] constructed with a positive [d_model]
    and an input of shape (batch, seq_len, model_dim), [forward] returns a
    tensor of the same shape: the heads' outputs, one per entry of [heads]
    and in that order, each of shape (batch, seq_len, head_dim), are
    concatenated along the last axis into (batch, seq_len, model_dim) and
    passed through [out_lin_layer]. *)
Theorem C4_multihead_forward_shape (dm n : Z) (st st' : State)
    (mha : MultiHeadAttention) (x : Tensor) :
  (0 < dm)%Z ->
  MultiHeadAttention_init dm n st = (Ok mha, st') ->
  wf_tensor x = true ->
  size2 x = Z.to_nat dm ->
  exists outs concat_out y,
    Forall2 (fun hd o => Attention_forward (heap st') hd x = Ok o) (heads mha) outs
    /\ length outs = Z.to_nat n
    /\ Forall (fun o => size o = (size0 x, size1 x, Z.to_nat (d_k mha))
                        /\ wf_tensor o = true) outs
    /\ torch_cat_last outs = Ok concat_out
    /\ size concat_out = size x
    /\ wf_tensor concat_out = true
    /\ (forall i j, i < size0 x -> j < size1 x ->
          nth j (nth i (data concat_out) []) [] =
          concat (map (fun o => nth j (nth i (data o) []) []) outs))
    /\ in_features (out_lin_layer mha) = Z.to_nat dm
    /\ out_features (out_lin_layer mha) = Z.to_nat dm
    /\ Linear_forward (heap st') (out_lin_layer mha) concat_out = Ok y
    /\ MultiHeadAttention_forward (heap st') mha x = Ok y
    /\ size y = size x
    /\ wf_tensor y = true.
Proof.
  intros Hpos Hinit Hwf Hs.
  destruct (MultiHeadAttention_forward_ok dm n st mha st' x Hpos Hinit Hwf Hs)
    as (outs & c & y & _ & HF2 & Hlen & Houts & Hc & Hcs & Hcwf & Hcr & Hy
        & Hfwd & Hys & Hywf).
  apply MultiHeadAttention_init_inv in Hinit.
  destruct Hinit as (_ & _ & _ & _ & _ & s1 & _ & _ & Hout).
  apply Linear_init_inv in Hout. destruct Hout as (_ & _ & Hoi & Hoo & _).
  assert (Hx : size x = (size0 x, size1 x, Z.to_nat dm))
    by (unfold size; now rewrite Hs).
  exists outs, c, y. rewrite Hx. repeat (split; [assumption|]). assumption.
Qed.

Lemma C4_multihead_forward_shape_witness :
  (0 < 512)%Z
  /\ MultiHeadAttention_init 512 8 st0 = (Ok example_multi_h, st_multi_h)
  /\ wf_tensor (torch_zeros 16 1 512) = true
  /\ size2 (torch_zeros 16 1 512) = Z.to_nat 512
  /\ exists y,
       MultiHeadAttention_forward (heap st_multi_h) example_multi_h
         (torch_zeros 16 1 512) = Ok y
       /\ size y = (16, 1, 512).
Proof.
  assert (H : MultiHeadAttention_init 512 8 st0 = (Ok example_multi_h, st_multi_h))
    by reflexivity.
  split; [reflexivity|]. split; [exact H|].
  split; [reflexivity|]. split; [reflexivity|].
  destruct (C4_multihead_forward_shape 512 8 st0 st_multi_h example_multi_h
              (torch_zeros 16 1 512) eq_refl H eq_refl eq_refl)
    as (outs & c & y & _ & _ & _ & _ & _ & _ & _ & _ & _ & _ & Hy & Hsz & _).
  exists y. split; [exact Hy|exact Hsz].
Defined.

(** ** FullyConnectedFeedForwardNetwork *)

(** C5 fails as stated: a dropout probability of 1 is outside [0, 1) and
    the construction succeeds; and when the construction does fail on the
    probability (here 2), the four parameter tensors of the two linear
    layers have been allocated by then. *)
Lemma C5_counterexample :
  (~ (0 <= 1 /\ 1 < 1)%Q
   /\ exists ffn st',
        FullyConnectedFeedForwardNetwork_init 512 2048 1 st0 = (Ok ffn, st'))
  /\ exists st',
       FullyConnectedFeedForwardNetwork_init 512 2048 2 st0 =
         (Raise (ValueError msg_dropout_range), st')
       /\ length (heap st') = 4.
Proof.
  split.
  - split; [intros [_ H]; discriminate H|].
    apply FullyConnectedFeedForwardNetwork_init_succeeds; discriminate.
  - destruct (FullyConnectedFeedForwardNetwork_init_dropout_raise 512 2048 2 st0)
      as (st' & H & t & Ht & Hl); [discriminate|discriminate|right; reflexivity|].
    exists st'. split; [exact H|]. rewrite Ht. simpl. exact Hl.
Qed.

(** C5, amended. Constructing the network fails whenever
    [dropout_prob < 0] or [dropout_prob > 1]; with non-negative dimensions
    the exception is the [ValueError] of [torch.nn.Dropout], raised once
    the four parameters of the two linear layers are in the store, and no
    network is returned.  Every probability in the closed interval [0, 1]
    is accepted. *)
Theorem C5_dropout_probability_checked (dm dh : Z) (p : Q) (st : State) :
  ((p < 0 \/ 1 < p)%Q ->
     exists e st',
       FullyConnectedFeedForwardNetwork_init dm dh p st = (Raise e, st'))
  /\ ((0 <= dm)%Z -> (0 <= dh)%Z -> (p < 0 \/ 1 < p)%Q ->
        exists st',
          FullyConnectedFeedForwardNetwork_init dm dh p st =
            (Raise (ValueError msg_dropout_range), st')
          /\ exists t, heap st' = heap st ++ t /\ length t = 4)
  /\ ((0 <= dm)%Z -> (0 <= dh)%Z -> (0 <= p)%Q -> (p <= 1)%Q ->
        exists ffn st',
          FullyConnectedFeedForwardNetwork_init dm dh p st = (Ok ffn, st')).
Proof.
  split; [|split].
  - intros Hp.
    destruct (Z_lt_le_dec dm 0) as [Hm|Hm];
      [|destruct (Z_lt_le_dec dh 0) as [Hh|Hh]].
    + eexists. eexists.
      apply FullyConnectedFeedForwardNetwork_init_negative. now left.
    + eexists. eexists.
      apply FullyConnectedFeedForwardNetwork_init_negative. now right.
    + destruct (FullyConnectedFeedForwardNetwork_init_dropout_raise
                  dm dh p st Hm Hh Hp) as (st' & H & _).
      eexists. eexists. exact H.
  - apply FullyConnectedFeedForwardNetwork_init_dropout_raise.
  - apply FullyConnectedFeedForwardNetwork_init_succeeds.
Qed.

Lemma C5_dropout_probability_checked_witness :
  ((-1 # 2 < 0 \/ 1 < -1 # 2)%Q
   /\ exists e st',
        FullyConnectedFeedForwardNetwork_init 512 2048 (-1 # 2) st0 = (Raise e, st'))
  /\ ((0 <= 512)%Z /\ (0 <= 2048)%Z /\ (0 <= 1 # 2)%Q /\ (1 # 2 <= 1)%Q
      /\ exists ffn st',
           FullyConnectedFeedForwardNetwork_init 512 2048 (1 # 2) st0 = (Ok ffn, st')).
Proof.
  assert (H1 : (-1 # 2 < 0 \/ 1 < -1 # 2)%Q) by (left; reflexivity).
  assert (H2 : (0 <= 512)%Z) by discriminate.
  assert (H3 : (0 <= 2048)%Z) by discriminate.
  assert (H4 : (0 <= 1 # 2)%Q) by discriminate.
  assert (H5 : (1 # 2 <= 1)%Q) by discriminate.
  split.
  - split; [exact H1|].
    exact (proj1 (C5_dropout_probability_checked 512 2048 (-1 # 2) st0) H1).
  - split; [exact H2|]. split; [exact H3|]. split; [exact H4|]. split; [exact H5|].
    exact (proj2 (proj2 (C5_dropout_probability_checked 512 2048 (1 # 2) st0))
             H2 H3 H4 H5).
Defined.

Lemma wf_spec_ffn_hidden W1 b1 dh m :
  length b1 = dh -> wf_matrix (length m) dh (spec_ffn_hidden W1 b1 dh m) = true.
Proof.
  intros Hb. unfold spec_ffn_hidden.
  apply wf_map_matrix, wf_add_row; [exact Hb|apply wf_matmul].
Qed.

Lemma wf_spec_ffn W1 b1 W2 b2 dh dm m :
  length b1 = dh -> length b2 = dm ->
  wf_matrix (length m) dm (spec_ffn W1 b1 W2 b2 dh dm m) = true.
Proof.
  intros Hb1 Hb2. unfold spec_ffn. apply wf_add_row; [exact Hb2|].
  pose proof (wf_matmul dm (spec_ffn_hidden W1 b1 dh m) W2) as H.
  pose proof (wf_spec_ffn_hidden W1 b1 dh m Hb1) as Hh.
  apply wf_matrix_iff in Hh. destruct Hh as [Hl _]. now rewrite Hl in H.
Qed.

(** C8. For a constructed network and an input of shape
    (batch, seq_len, model_dim): both linear layers carry a bias; the first
    two modules give hidden = ReLU(x W1 + b1) of trailing size hidden_dim;
    the second linear layer gives hidden W2 + b2 of trailing size
    model_dim; in evaluation mode [forward] returns exactly that tensor and
    draws nothing from the generator; in training mode it returns the
    dropout of that tensor, of the same shape. *)
Theorem C8_feed_forward (dm dh : Z) (p : Q) (st st' : State)
    (ffn : FullyConnectedFeedForwardNetwork) (x : Tensor) :
  FullyConnectedFeedForwardNetwork_init dm dh p st = (Ok ffn, st') ->
  wf_tensor x = true ->
  size2 x = Z.to_nat dm ->
  exists l1 l2 b1 b2,
    model ffn = [LLinear l1; LReLU; LLinear l2; LDropout p true]
    /\ bias l1 = Some b1 /\ bias l2 = Some b2
    /\ size (ffn_hidden_tensor (heap st') l1 x) = (size0 x, size1 x, Z.to_nat dh)
    /\ wf_tensor (ffn_hidden_tensor (heap st') l1 x) = true
    /\ size (ffn_output_tensor (heap st') l1 l2 x) = size x
    /\ wf_tensor (ffn_output_tensor (heap st') l1 l2 x) = true
    /\ forall s, heap s = heap st' ->
         Sequential_forward [LLinear l1; LReLU] x s =
           (Ok (ffn_hidden_tensor (heap st') l1 x), s)
         /\ Linear_forward (heap s) l2 (ffn_hidden_tensor (heap st') l1 x) =
              Ok (ffn_output_tensor (heap st') l1 l2 x)
         /\ FullyConnectedFeedForwardNetwork_forward
              (FullyConnectedFeedForwardNetwork_eval ffn) x s =
              (Ok (ffn_output_tensor (heap st') l1 l2 x), s)
         /\ FullyConnectedFeedForwardNetwork_forward ffn x s =
              F_dropout (ffn_output_tensor (heap st') l1 l2 x) p true s
         /\ exists y s',
              FullyConnectedFeedForwardNetwork_forward ffn x s = (Ok y, s')
              /\ size y = size x /\ wf_tensor y = true.
Proof.
  intros Hinit Hwf Hs.
  apply FullyConnectedFeedForwardNetwork_init_inv in Hinit.
  destruct Hinit as (_ & _ & l1 & l2 & s1 & H1 & H2 & Hmodel).
  apply Linear_init_inv in H1, H2.
  destruct H1 as (_ & _ & Hi1 & Ho1 & _ & Hb1 & Hok1 & _ & _).
  destruct H2 as (_ & _ & Hi2 & Ho2 & _ & Hb2 & Hok2 & (t & Ht & _) & _).
  assert (Hok1' : Linear_ok (heap st') l1) by (rewrite Ht; now apply Linear_ok_app).
  pose proof (length_bias_of _ _ _ Hok1' Hb1) as Hlb1.
  pose proof (length_bias_of _ _ _ Hok2 Hb2) as Hlb2.
  assert (Hx : size x = (size0 x, size1 x, Z.to_nat dm))
    by (unfold size; now rewrite Hs).
  assert (Hwfh : wf_tensor (ffn_hidden_tensor (heap st') l1 x) = true).
  { apply (wf_tensor_map _ x); [exact Hwf|].
    intros m Hm. apply wf_matrix_iff in Hm. destruct Hm as [<- _].
    now apply wf_spec_ffn_hidden. }
  assert (Hwfo : wf_tensor (ffn_output_tensor (heap st') l1 l2 x) = true).
  { apply (wf_tensor_map _ x); [exact Hwf|].
    intros m Hm. apply wf_matrix_iff in Hm. destruct Hm as [<- _].
    now apply wf_spec_ffn. }
  exists l1, l2. eexists. eexists.
  split; [exact Hmodel|]. split; [exact Hb1|]. split; [exact Hb2|].
  split; [unfold size; simpl; now rewrite Ho1|]. split; [exact Hwfh|].
  split; [rewrite Hx; unfold size; simpl; now rewrite Ho2|]. split; [exact Hwfo|].
  intros s Hheap.
  assert (Hs1 : size2 x = in_features l1) by congruence.
  assert (Hio : out_features l1 = in_features l2) by congruence.
  rewrite <- Hheap in Hok1', Hok2.
  pose proof (fun mode => Sequential_forward_ffn s l1 l2 _ _ p mode x
                Hok1' Hok2 Hb1 Hb2 Hs1 Hio) as Hseq.
  rewrite Hheap in Hseq. fold (ffn_output_tensor (heap st') l1 l2 x) in Hseq.
  split; [|split; [|split; [|split]]].
  - cbn [Sequential_forward Layer_forward]. unfold bind at 1, read at 1.
    rewrite (Linear_forward_bias _ _ _ _ Hok1' Hb1 Hs1).
    unfold bind, ret, F_relu, ffn_hidden_tensor, spec_ffn_hidden.
    cbn [size0 size1 size2 data]. rewrite map_map, Hheap. reflexivity.
  - erewrite Linear_forward_bias; [|exact Hok2|exact Hb2|exact Hio].
    unfold ffn_hidden_tensor, ffn_output_tensor, spec_ffn.
    cbn [size0 size1 size2 data]. rewrite map_map, Hheap. reflexivity.
  - unfold FullyConnectedFeedForwardNetwork_forward,
      FullyConnectedFeedForwardNetwork_eval,
      FullyConnectedFeedForwardNetwork_train.
    cbn [model]. rewrite Hmodel. cbn [map Layer_set_training].
    rewrite (Hseq false). reflexivity.
  - unfold FullyConnectedFeedForwardNetwork_forward. rewrite Hmodel.
    apply (Hseq true).
  - unfold FullyConnectedFeedForwardNetwork_forward. rewrite Hmodel, (Hseq true).
    destruct (F_dropout_shape (ffn_output_tensor (heap st') l1 l2 x) p s Hwfo)
      as (y & s' & Hd & Hsz & Hwfy).
    exists y, s'. split; [exact Hd|]. split; [|exact Hwfy].
    rewrite Hsz, Hx. unfold size; simpl; now rewrite Ho2.
Qed.

Lemma C8_feed_forward_witness :
  FullyConnectedFeedForwardNetwork_init 512 2048 (1 # 2) st0 =
    (Ok example_ffn, st_ffn)
  /\ wf_tensor (torch_zeros 16 1 512) = true
  /\ size2 (torch_zeros 16 1 512) = Z.to_nat 512
  /\ exists y,
       FullyConnectedFeedForwardNetwork_forward
         (FullyConnectedFeedForwardNetwork_eval example_ffn)
         (torch_zeros 16 1 512) st_ffn = (Ok y, st_ffn)
       /\ size y = (16, 1, 512).
Proof.
  assert (H : FullyConnectedFeedForwardNetwork_init 512 2048 (1 # 2) st0 =
              (Ok example_ffn, st_ffn)) by reflexivity.
  split; [exact H|]. split; [reflexivity|]. split; [reflexivity|].
  destruct (C8_feed_forward 512 2048 (1 # 2) st0 st_ffn example_ffn
              (torch_zeros 16 1 512) H eq_refl eq_refl)
    as (l1 & l2 & b1 & b2 & _ & _ & _ & _ & _ & Hsz & _ & Hfwd).
  destruct (Hfwd st_ffn eq_refl) as (_ & _ & Heval & _).
  eexists. split; [exact Heval|exact Hsz].
Defined.

(** ** Shape mismatch *)

(** C9. For each of the three modules constructed for a positive
    [d_model] (512 in particular), [forward] on an input whose trailing
    size differs from [d_model] (256 in particular) raises the shape
    mismatch error of the first matrix product; nothing is returned, and
    for the feed-forward network the state is left as it was. *)
Theorem C9_shape_mismatch (dm : Z) (x : Tensor) :
  (0 < dm)%Z ->
  size2 x <> Z.to_nat dm ->
  (forall dk st a st',
      Attention_init dm dk st = (Ok a, st') ->
      Attention_forward (heap st') a x = Raise (RuntimeError msg_shape_mismatch))
  /\ (forall n st mha st',
         MultiHeadAttention_init dm n st = (Ok mha, st') ->
         MultiHeadAttention_forward (heap st') mha x =
         Raise (RuntimeError msg_shape_mismatch))
  /\ (forall dh p st ffn st' mode,
         FullyConnectedFeedForwardNetwork_init dm dh p st = (Ok ffn, st') ->
         FullyConnectedFeedForwardNetwork_forward
           (FullyConnectedFeedForwardNetwork_train ffn mode) x st' =
         (Raise (RuntimeError msg_shape_mismatch), st')).
Proof.
  intros Hpos Hs.
  assert (Hhead : forall dk st a st' t,
    Attention_init dm dk st = (Ok a, st') ->
    Attention_forward (heap st' ++ t) a x = Raise (RuntimeError msg_shape_mismatch)).
  { intros dk st a st' t Hinit. apply Attention_init_inv in Hinit.
    destruct Hinit as (_ & _ & Hok & Hdims & _).
    apply (Attention_ok_app _ t) in Hok. destruct Hok as (Hq & _).
    unfold Attention_dims in Hdims.
    inversion Hdims as [|? ? (Hqi & _) _].
    unfold Attention_forward.
    rewrite (Linear_forward_mismatch _ _ _ Hq); [reflexivity|congruence]. }
  split; [|split].
  - intros dk st a st' Hinit.
    rewrite <- (app_nil_r (heap st')). now apply (Hhead dk st).
  - intros n st mha st' Hinit.
    destruct (MultiHeadAttention_init_positive _ _ _ _ _ Hpos Hinit) as [Hn _].
    apply MultiHeadAttention_init_inv in Hinit.
    destruct Hinit as (_ & _ & _ & _ & head & s1 & Hinit & Hheads & Hout).
    apply Linear_init_inv in Hout.
    destruct Hout as (_ & _ & _ & _ & _ & _ & _ & (t & Ht & _) & _).
    unfold MultiHeadAttention_forward. rewrite Hheads, Ht.
    unfold py_list_repeat.
    destruct (Z.to_nat n) as [|k] eqn:Hk; [lia|]. cbn [repeat].
    rewrite (comprehension_Raise
               (fun hd => Attention_forward (heap s1 ++ t) hd x) head _ _
               (Hhead _ _ _ _ t Hinit)).
    reflexivity.
  - intros dh p st ffn st' mode Hinit.
    apply FullyConnectedFeedForwardNetwork_init_inv in Hinit.
    destruct Hinit as (_ & _ & l1 & l2 & s1 & H1 & H2 & Hmodel).
    apply Linear_init_inv in H1, H2.
    destruct H1 as (_ & _ & Hi1 & _ & _ & _ & Hok1 & _ & _).
    destruct H2 as (_ & _ & _ & _ & _ & _ & _ & (t & Ht & _) & _).
    assert (Hok1' : Linear_ok (heap st') l1)
      by (rewrite Ht; now apply Linear_ok_app).
    unfold FullyConnectedFeedForwardNetwork_forward,
      FullyConnectedFeedForwardNetwork_train.
    cbn [model]. rewrite Hmodel.
    cbn [map Layer_set_training Sequential_forward Layer_forward].
    unfold bind at 1, read at 1.
    rewrite (Linear_forward_mismatch _ _ _ Hok1'); [reflexivity|congruence].
Qed.

Lemma C9_shape_mismatch_witness :
  (0 < 512)%Z
  /\ size2 (torch_zeros 16 1 256) <> Z.to_nat 512
  /\ Attention_init 512 64 st0 = (Ok example_head, st_head)
  /\ Attention_forward (heap st_head) example_head (torch_zeros 16 1 256) =
     Raise (RuntimeError msg_shape_mismatch)
  /\ MultiHeadAttention_init 512 8 st0 = (Ok example_multi_h, st_multi_h)
  /\ MultiHeadAttention_forward (heap st_multi_h) example_multi_h
       (torch_zeros 16 1 256) = Raise (RuntimeError msg_shape_mismatch)
  /\ FullyConnectedFeedForwardNetwork_init 512 2048 (1 # 2) st0 =
       (Ok example_ffn, st_ffn)
  /\ FullyConnectedFeedForwardNetwork_forward
       (FullyConnectedFeedForwardNetwork_train example_ffn true)
       (torch_zeros 16 1 256) st_ffn =
     (Raise (RuntimeError msg_shape_mismatch), st_ffn).
Proof.
  assert (H1 : (0 < 512)%Z) by reflexivity.
  assert (H2 : size2 (torch_zeros 16 1 256) <> Z.to_nat 512)
    by (apply Nat.eqb_neq; reflexivity).
  assert (Ha : Attention_init 512 64 st0 = (Ok example_head, st_head))
    by reflexivity.
  assert (Hm : MultiHeadAttention_init 512 8 st0 = (Ok example_multi_h, st_multi_h))
    by reflexivity.
  assert (Hf : FullyConnectedFeedForwardNetwork_init 512 2048 (1 # 2) st0 =
               (Ok example_ffn, st_ffn)) by reflexivity.
  destruct (C9_shape_mismatch 512 (torch_zeros 16 1 256) H1 H2) as (Ca & Cm & Cf).
  split; [exact H1|]. split; [exact H2|].
  split; [exact Ha|]. split; [exact (Ca _ _ _ _ Ha)|].
  split; [exact Hm|]. split; [exact (Cm _ _ _ _ Hm)|].
  split; [exact Hf|]. exact (Cf _ _ _ _ _ true Hf).
Defined.

(** * Further properties of the code *)

(** ** Constructors and the store *)

Lemma store_extends_refl st : store_extends st st.
Proof.
  split; [exists []; now rewrite app_nil_r|]. split; [reflexivity|lia].
Qed.

Lemma store_extends_trans s1 s2 s3 :
  store_extends s1 s2 -> store_extends s2 s3 -> store_extends s1 s3.
Proof.
  intros ((t1 & H1) & R1 & P1) ((t2 & H2) & R2 & P2). split; [|split].
  - exists (t1 ++ t2). now rewrite H2, H1, app_assoc.
  - congruence.
  - lia.
Qed.

Lemma bind_extends {A B} (m : M A) (k : A -> M B) :
  (forall st, store_extends st (snd (m st))) ->
  (forall a st, store_extends st (snd (k a st))) ->
  forall st, store_extends st (snd (bind m k st)).
Proof.
  intros Hm Hk st. unfold bind. specialize (Hm st).
  destruct (m st) as [[a|e] s1]; simpl in Hm.
  - eapply store_extends_trans; [exact Hm|apply Hk].
  - exact Hm.
Qed.

Lemma Linear_init_extends i o wb st :
  store_extends st (snd (Linear_init i o wb st)).
Proof.
  unfold Linear_init. destruct (Z.ltb i 0 || Z.ltb o 0).
  - apply store_extends_refl.
  - destruct wb; unfold bind, uniform2, uniform1, alloc, ret; simpl.
    + split; [|split; [reflexivity|simpl; lia]].
      eexists. simpl. rewrite <- app_assoc. reflexivity.
    + split; [|split; [reflexivity|simpl; lia]].
      eexists. reflexivity.
Qed.

Lemma Attention_init_extends dm dk st :
  store_extends st (snd (Attention_init dm dk st)).
Proof.
  revert st. unfold Attention_init.
  apply bind_extends; [apply Linear_init_extends|intros q].
  apply bind_extends; [apply Linear_init_extends|intros k].
  apply bind_extends; [apply Linear_init_extends|intros v].
  intros st. apply store_extends_refl.
Qed.

Lemma MultiHeadAttention_init_extends dm n st :
  store_extends st (snd (MultiHeadAttention_init dm n st)).
Proof.
  revert st. unfold MultiHeadAttention_init.
  apply bind_extends.
  { intros st. unfold py_int_truediv. destruct (Z.eqb n 0);
      apply store_extends_refl. }
  intros dk. apply bind_extends.
  { intros st. unfold py_assert. destruct (Z.eqb (dk * n) dm);
      apply store_extends_refl. }
  intros _. apply bind_extends; [apply Attention_init_extends|intros head].
  apply bind_extends; [apply Linear_init_extends|intros out].
  intros st. apply store_extends_refl.
Qed.

Lemma FullyConnectedFeedForwardNetwork_init_extends dm dh p st :
  store_extends st (snd (FullyConnectedFeedForwardNetwork_init dm dh p st)).
Proof.
  revert st. unfold FullyConnectedFeedForwardNetwork_init.
  apply bind_extends; [apply Linear_init_extends|intros l1].
  apply bind_extends; [apply Linear_init_extends|intros l2].
  apply bind_extends.
  { intros st. unfold Dropout_init.
    destruct (negb (Qle_bool 0 p) || negb (Qle_bool p 1));
      apply store_extends_refl. }
  intros d st. apply store_extends_refl.
Qed.

(** X1. No constructor overwrites or removes a parameter that is already
    in the store, and none rewinds the generator, whether it returns a
    module or raises: the store afterwards is the store before followed by
    the new parameters. *)
Theorem X1_constructors_append_only (st : State) :
  (forall dm dk, store_extends st (snd (Attention_init dm dk st)))
  /\ (forall dm n, store_extends st (snd (MultiHeadAttention_init dm n st)))
  /\ (forall dm dh p,
        store_extends st (snd (FullyConnectedFeedForwardNetwork_init dm dh p st))).
Proof.
  split; [|split]; intros.
  - apply Attention_init_extends.
  - apply MultiHeadAttention_init_extends.
  - apply FullyConnectedFeedForwardNetwork_init_extends.
Qed.

Lemma Linear_forward_app h t l x :
  Linear_ok h l -> Linear_forward (h ++ t) l x = Linear_forward h l x.
Proof.
  intros [[w [Hw _]] Hb]. unfold Linear_forward, lookup.
  assert (Hlt : weight l < length h) by (apply nth_error_Some; congruence).
  rewrite (nth_error_app1 h t Hlt).
  destruct (bias l) as [bloc|]; [|reflexivity].
  destruct Hb as [b [Hbl _]].
  assert (Hlt' : bloc < length h) by (apply nth_error_Some; congruence).
  now rewrite (nth_error_app1 h t Hlt').
Qed.

Lemma Attention_forward_app h t a x :
  Attention_ok h a -> Attention_forward (h ++ t) a x = Attention_forward h a x.
Proof.
  intros (Hq & Hk & Hv). unfold Attention_forward.
  now rewrite !Linear_forward_app.
Qed.

Lemma comprehension_ext {A B} (f g : A -> Result B) (l : list A) :
  (forall a, In a l -> f a = g a) -> comprehension f l = comprehension g l.
Proof.
  induction l as [|a l IH]; intros H; simpl; [reflexivity|].
  rewrite (H a (or_introl eq_refl)), IH; [reflexivity|].
  intros a' Ha'. apply H. now right.
Qed.

(** X2. A head or a multi-head module computes the same [forward] on every
    input after the store has been extended, for instance by constructing
    further modules: later constructions do not disturb earlier modules. *)
Theorem X2_forward_stable_under_extension (st1 st2 : State) (x : Tensor) :
  store_extends st1 st2 ->
  (forall dm dk st a,
      Attention_init dm dk st = (Ok a, st1) ->
      Attention_forward (heap st2) a x = Attention_forward (heap st1) a x)
  /\ (forall dm n st mha,
         MultiHeadAttention_init dm n st = (Ok mha, st1) ->
         MultiHeadAttention_forward (heap st2) mha x =
         MultiHeadAttention_forward (heap st1) mha x).
Proof.
  intros ((t & Ht) & _ & _). rewrite Ht. split.
  - intros dm dk st a Hinit. apply Attention_init_inv in Hinit.
    destruct Hinit as (_ & _ & Hok & _). now apply Attention_forward_app.
  - intros dm n st mha Hinit. apply MultiHeadAttention_init_inv in Hinit.
    destruct Hinit as (_ & _ & _ & _ & head & s1 & Hhead & Hheads & Hout).
    apply Attention_init_inv in Hhead. destruct Hhead as (_ & _ & Hok & _).
    apply Linear_init_inv in Hout.
    destruct Hout as (_ & _ & _ & _ & _ & _ & Hook & (t1 & Ht1 & _) & _).
    assert (Hok1 : Attention_ok (heap st1) head)
      by (rewrite Ht1; now apply Attention_ok_app).
    unfold MultiHeadAttention_forward.
    rewrite (comprehension_ext
               (fun hd => Attention_forward (heap st1 ++ t) hd x)
               (fun hd => Attention_forward (heap st1) hd x)).
    + destruct (comprehension _ (heads mha)) as [outs|e]; [|reflexivity].
      cbn [rbind]. destruct (torch_cat_last outs) as [c|e]; [|reflexivity].
      cbn [rbind]. now apply Linear_forward_app.
    + intros hd Hin. rewrite Hheads in Hin. unfold py_list_repeat in Hin.
      apply repeat_spec in Hin. subst hd. now apply Attention_forward_app.
Qed.

Lemma X2_forward_stable_under_extension_witness :
  store_extends st_head (snd (Attention_init 512 64 st_head))
  /\ Attention_init 512 64 st0 = (Ok example_head, st_head)
  /\ Attention_forward (heap (snd (Attention_init 512 64 st_head))) example_head
       (torch_zeros 16 1 512) =
     Attention_forward (heap st_head) example_head (torch_zeros 16 1 512).
Proof.
  assert (H1 : store_extends st_head (snd (Attention_init 512 64 st_head)))
    by apply Attention_init_extends.
  assert (H2 : Attention_init 512 64 st0 = (Ok example_head, st_head))
    by reflexivity.
  split; [exact H1|]. split; [exact H2|].
  exact (proj1 (X2_forward_stable_under_extension st_head _
                  (torch_zeros 16 1 512) H1) 512%Z 64%Z st0 example_head H2).
Defined.

(** X3. Two heads built by two constructor calls, the second in any state
    reached after the first, have no parameter location in common (unlike
    the entries of [heads], which come from a single call). *)
Theorem X3_separate_heads_disjoint (dm dk dm' dk' : Z) (st st1 st1' st2 : State)
    (a1 a2 : Attention) :
  Attention_init dm dk st = (Ok a1, st1) ->
  store_extends st1 st1' ->
  Attention_init dm' dk' st1' = (Ok a2, st2) ->
  forall l1 l2,
    In l1 (Attention_storage a1) -> In l2 (Attention_storage a2) -> l1 <> l2.
Proof.
  intros H1 ((t & Ht) & _ & _) H2 l1 l2 Hl1 Hl2.
  apply Attention_init_inv in H1, H2.
  destruct H1 as (_ & _ & _ & _ & Hs1 & (t1 & Ht1 & Hlen1) & _).
  destruct H2 as (_ & _ & _ & _ & Hs2 & _).
  rewrite Hs1 in Hl1. rewrite Hs2 in Hl2.
  assert (Hlen : length (heap st) + 3 <= length (heap st1')).
  { rewrite Ht, Ht1, !length_app. lia. }
  simpl in Hl1, Hl2. lia.
Qed.

Lemma X3_separate_heads_disjoint_witness :
  Attention_init 512 64 st0 = (Ok example_head, st_head)
  /\ store_extends st_head st_head
  /\ Attention_init 512 64 st_head =
     (Ok {| weightQ := mkLinear 512 64 3 None;
            weightK := mkLinear 512 64 4 None;
            weightV := mkLinear 512 64 5 None |},
      snd (Attention_init 512 64 st_head))
  /\ 0 <> 3.
Proof.
  assert (H1 : Attention_init 512 64 st0 = (Ok example_head, st_head))
    by reflexivity.
  assert (H2 : store_extends st_head st_head) by apply store_extends_refl.
  assert (H3 : Attention_init 512 64 st_head =
     (Ok {| weightQ := mkLinear 512 64 3 None;
            weightK := mkLinear 512 64 4 None;
            weightV := mkLinear 512 64 5 None |},
      snd (Attention_init 512 64 st_head))) by reflexivity.
  split; [exact H1|]. split; [exact H2|]. split; [exact H3|].
  apply (X3_separate_heads_disjoint 512 64 512 64 st0 st_head st_head _ _ _
           H1 H2 H3); simpl; auto.
Defined.

(** ** Construction of [MultiHeadAttention], continued *)

(** X4. With a positive [d_model] below 2^53 (so that the float division
    of the constructor is exact on it), the construction succeeds exactly
    when [n_heads] is positive and divides [d_model]; the head width is then
    [d_model / n_heads].  Zero, negative and non-dividing head counts all
    raise. *)
Theorem X4_construction_succeeds_iff (dm n : Z) (st : State) :
  (0 < dm)%Z -> (dm < 2 ^ 53)%Z ->
  ((exists mha st', MultiHeadAttention_init dm n st = (Ok mha, st'))
   <-> (0 < n)%Z /\ Z.rem dm n = 0%Z)
  /\ (forall mha st',
        MultiHeadAttention_init dm n st = (Ok mha, st') ->
        d_k mha = (dm / n)%Z /\ (d_k mha * n = dm)%Z).
Proof.
  intros Hpos Hbound. split; [split|].
  - intros (mha & st' & H).
    destruct (MultiHeadAttention_init_positive _ _ _ _ _ Hpos H) as [Hn _].
    apply MultiHeadAttention_init_inv in H.
    destruct H as (Hn0 & Hdk & _ & Hmul & _). split; [exact Hn|].
    pose proof (Z.quot_rem' dm n) as Hqr. rewrite Hdk in Hmul. lia.
  - intros [Hn Hrem].
    pose proof (Z.quot_rem' dm n) as Hqr.
    destruct (MultiHeadAttention_init_succeeds dm n st) as (mha & st' & H & _);
      [exact Hn|lia|lia|exact Hbound|].
    now exists mha, st'.
  - intros mha st' H.
    destruct (MultiHeadAttention_init_positive _ _ _ _ _ Hpos H) as [Hn _].
    apply MultiHeadAttention_init_inv in H.
    destruct H as (_ & Hdk & _ & Hmul & _). split; [|exact Hmul].
    rewrite Hdk. apply Z.quot_div_nonneg; lia.
Qed.

Lemma X4_construction_succeeds_iff_witness :
  (0 < 512)%Z /\ (512 < 2 ^ 53)%Z
  /\ ((exists mha st', MultiHeadAttention_init 512 8 st0 = (Ok mha, st'))
      <-> (0 < 8)%Z /\ Z.rem 512 8 = 0%Z)
  /\ ((exists mha st', MultiHeadAttention_init 512 7 st0 = (Ok mha, st'))
      <-> (0 < 7)%Z /\ Z.rem 512 7 = 0%Z).
Proof.
  assert (H : (0 < 512)%Z) by reflexivity.
  assert (Hb : (512 < 2 ^ 53)%Z) by reflexivity.
  split; [exact H|]. split; [exact Hb|]. split.
  - exact (proj1 (X4_construction_succeeds_iff 512 8 st0 H Hb)).
  - exact (proj1 (X4_construction_succeeds_iff 512 7 st0 H Hb)).
Defined.

(** X5. A negative [n_heads] that divides a positive [d_model] below 2^53
    passes the assertion: the division gives the exact negative quotient,
    and the negative head width times the negative head count gives
    [d_model] back.  The construction then raises the allocation's
    [RuntimeError] for the negative head width, with the store untouched. *)
Theorem X5_negative_heads_pass_the_assertion (dm n : Z) (st : State) :
  (0 < dm)%Z -> (dm < 2 ^ 53)%Z -> (n < 0)%Z -> Z.rem dm n = 0%Z ->
  py_int_truediv dm n st = (Ok (Z.quot dm n), st)
  /\ (Z.quot dm n < 0)%Z
  /\ py_assert (Z.eqb (Z.quot dm n * n) dm) msg_not_divisible st = (Ok tt, st)
  /\ MultiHeadAttention_init dm n st =
     (Raise (RuntimeError msg_negative_dimension), st).
Proof.
  intros Hpos Hbound Hn Hrem.
  pose proof (Z.quot_rem' dm n) as Hqr.
  assert (Hmul : (Z.quot dm n * n = dm)%Z) by lia.
  assert (Hneg : (Z.quot dm n < 0)%Z) by nia.
  assert (Hdiv : int_truediv dm n = Ok (Z.quot dm n)).
  { rewrite <- Hmul at 1. apply int_truediv_exact; [lia|]. nia. }
  apply Z.eqb_eq in Hmul.
  split; [unfold py_int_truediv; now rewrite Hdiv|].
  split; [exact Hneg|].
  split; [unfold py_assert; now rewrite Hmul|].
  unfold MultiHeadAttention_init, py_int_truediv.
  unfold bind at 1. rewrite Hdiv. rewrite Hmul.
  unfold bind at 1, py_assert, ret at 1.
  rewrite (bind_Raise _ _ _ _ _
             (Attention_init_negative dm (Z.quot dm n) st (or_intror Hneg))).
  reflexivity.
Qed.

Lemma X5_negative_heads_pass_the_assertion_witness :
  (0 < 512)%Z /\ (512 < 2 ^ 53)%Z /\ (-8 < 0)%Z /\ Z.rem 512 (-8) = 0%Z
  /\ py_int_truediv 512 (-8) st0 = (Ok (-64)%Z, st0)
  /\ MultiHeadAttention_init 512 (-8) st0 =
     (Raise (RuntimeError msg_negative_dimension), st0).
Proof.
  assert (H1 : (0 < 512)%Z) by reflexivity.
  assert (Hb : (512 < 2 ^ 53)%Z) by reflexivity.
  assert (H2 : (-8 < 0)%Z) by reflexivity.
  assert (H3 : Z.rem 512 (-8) = 0%Z) by reflexivity.
  split; [exact H1|]. split; [exact Hb|]. split; [exact H2|]. split; [exact H3|].
  split.
  - exact (proj1 (X5_negative_heads_pass_the_assertion 512 (-8) st0 H1 Hb H2 H3)).
  - exact (proj2 (proj2 (proj2
             (X5_negative_heads_pass_the_assertion 512 (-8) st0 H1 Hb H2 H3)))).
Defined.

Lemma Linear_init_footprint i o wb st l st' :
  Linear_init i o wb st = (Ok l, st') ->
  exists t,
    heap st' = heap st ++ t
    /\ map numel t = (if wb then [Z.to_nat o * Z.to_nat i; Z.to_nat o]
                      else [Z.to_nat o * Z.to_nat i])
    /\ rng_pos st' = rng_pos st + list_sum (map numel t).
Proof.
  unfold Linear_init.
  destruct (Z.ltb i 0 || Z.ltb o 0); [discriminate|].
  destruct wb; unfold bind, uniform2, uniform1, alloc, ret; simpl;
    intros H; inversion H; subst; clear H; simpl.
  - eexists. split; [rewrite <- app_assoc; reflexivity|].
    split; [reflexivity|simpl; lia].
  - eexists. split; [reflexivity|]. split; [reflexivity|simpl; lia].
Qed.

(** X6. A successful construction allocates exactly five parameter tensors
    (three projections of one head, the weight and the bias of the output
    layer), however many heads were asked for, holding
    [3 * d_k * d_model + d_model * d_model + d_model] scalars in all, and
    draws exactly that many values from the generator. *)
Theorem X6_parameter_footprint (dm n : Z) (st st' : State)
    (mha : MultiHeadAttention) :
  MultiHeadAttention_init dm n st = (Ok mha, st') ->
  exists t,
    heap st' = heap st ++ t
    /\ length t = 5
    /\ list_sum (map numel t) =
       3 * (Z.to_nat (d_k mha) * Z.to_nat dm) + Z.to_nat dm * Z.to_nat dm
       + Z.to_nat dm
    /\ rng_pos st' = rng_pos st + list_sum (map numel t).
Proof.
  intros H. apply MultiHeadAttention_init_inv in H.
  destruct H as (_ & _ & _ & _ & head & s1 & Hhead & _ & Hout).
  unfold Attention_init in Hhead.
  apply bind_Ok_inv in Hhead. destruct Hhead as (q & sq & Hq & Hhead).
  apply bind_Ok_inv in Hhead. destruct Hhead as (k & sk & Hk & Hhead).
  apply bind_Ok_inv in Hhead. destruct Hhead as (v & sv & Hv & Hhead).
  unfold ret in Hhead. inversion Hhead; subst; clear Hhead.
  apply Linear_init_footprint in Hq, Hk, Hv, Hout.
  destruct Hq as (tq & Hq & Nq & Pq). destruct Hk as (tk & Hk & Nk & Pk).
  destruct Hv as (tv & Hv & Nv & Pv). destruct Hout as (to & Ho & No & Po).
  exists (tq ++ tk ++ tv ++ to).
  assert (Hsum : list_sum (map numel (tq ++ tk ++ tv ++ to)) =
                 list_sum (map numel tq) + list_sum (map numel tk)
                 + list_sum (map numel tv) + list_sum (map numel to)).
  { rewrite !map_app, !list_sum_app. lia. }
  split; [|split; [|split]].
  - rewrite Ho, Hv, Hk, Hq. now rewrite <- !app_assoc.
  - rewrite <- (length_map numel), !map_app, Nq, Nk, Nv, No. reflexivity.
  - rewrite Hsum, Nq, Nk, Nv, No. simpl. lia.
  - rewrite Hsum. lia.
Qed.

Lemma X6_parameter_footprint_witness :
  MultiHeadAttention_init 512 8 st0 = (Ok example_multi_h, st_multi_h)
  /\ exists t,
       heap st_multi_h = heap st0 ++ t
       /\ length t = 5
       /\ list_sum (map numel t) =
          3 * (Z.to_nat 64 * Z.to_nat 512) + Z.to_nat 512 * Z.to_nat 512
          + Z.to_nat 512.
Proof.
  assert (H : MultiHeadAttention_init 512 8 st0 = (Ok example_multi_h, st_multi_h))
    by reflexivity.
  split; [exact H|].
  destruct (X6_parameter_footprint 512 8 st0 st_multi_h example_multi_h H)
    as (t & Ht & Hl & Hs & _).
  exists t. split; [exact Ht|]. split; [exact Hl|exact Hs].
Defined.

(** ** Forward pass of [MultiHeadAttention], continued *)

Lemma Forall2_repeat_l {A B} (R : A -> B -> Prop) (a : A) (o : B) k l :
  Forall2 R (repeat a k) l -> (forall b, R a b -> b = o) -> l = repeat o k.
Proof.
  revert l. induction k as [|k IH]; intros l HF Hfun; simpl in HF.
  - inversion HF. reflexivity.
  - inversion HF as [|? b ? l' Hab HF']; subst. simpl.
    rewrite (Hfun b Hab). f_equal. now apply IH.
Qed.

(** X7. In [forward] every head returns the same tensor: the list of head
    outputs is one output repeated [n_heads] times, and each row of the
    concatenation is that output's row written [n_heads] times in a row. *)
Theorem X7_heads_compute_the_same (dm n : Z) (st st' : State)
    (mha : MultiHeadAttention) (x : Tensor) :
  (0 < dm)%Z ->
  MultiHeadAttention_init dm n st = (Ok mha, st') ->
  wf_tensor x = true ->
  size2 x = Z.to_nat dm ->
  exists o concat_out,
    Forall (fun hd => Attention_forward (heap st') hd x = Ok o) (heads mha)
    /\ comprehension (fun hd => Attention_forward (heap st') hd x) (heads mha)
       = Ok (repeat o (Z.to_nat n))
    /\ torch_cat_last (repeat o (Z.to_nat n)) = Ok concat_out
    /\ (forall i j, i < size0 x -> j < size1 x ->
          nth j (nth i (data concat_out) []) [] =
          concat (repeat (nth j (nth i (data o) []) []) (Z.to_nat n)))
    /\ MultiHeadAttention_forward (heap st') mha x =
       Linear_forward (heap st') (out_lin_layer mha) concat_out.
Proof.
  intros Hpos Hinit Hwf Hs.
  destruct (MultiHeadAttention_forward_ok dm n st mha st' x Hpos Hinit Hwf Hs)
    as (outs & c & y & Hcomp & HF2 & Hlen & _ & Hc & _ & _ & Hcr & Hy & Hfwd & _).
  apply MultiHeadAttention_init_inv in Hinit.
  destruct Hinit as (_ & _ & _ & _ & head & s1 & Hhead & Hheads & Hout).
  unfold py_list_repeat in Hheads.
  apply Attention_init_inv in Hhead.
  destruct Hhead as (_ & _ & Hok & Hdims & _).
  apply Linear_init_inv in Hout.
  destruct Hout as (_ & _ & _ & _ & _ & _ & _ & (t & Ht & _) & _).
  assert (Hok' : Attention_ok (heap st') head)
    by (rewrite Ht; now apply Attention_ok_app).
  destruct (Attention_forward_eq _ _ _ _ _ Hok' Hdims Hwf Hs) as [_ Ho].
  match type of Ho with _ = Ok ?t => set (o := t) in * end.
  assert (Houts : outs = repeat o (Z.to_nat n)).
  { rewrite Hheads in HF2. apply (Forall2_repeat_l _ head o _ _ HF2).
    intros b Hb. congruence. }
  subst outs. exists o, c.
  split; [|split; [exact Hcomp|split; [exact Hc|split]]].
  - rewrite Hheads. apply Forall_forall. intros hd Hin.
    apply repeat_spec in Hin. now subst hd.
  - intros i j Hi Hj. rewrite (Hcr i j Hi Hj). f_equal. apply map_repeat.
  - rewrite Hfwd. symmetry. exact Hy.
Qed.

Lemma X7_heads_compute_the_same_witness :
  (0 < 512)%Z
  /\ MultiHeadAttention_init 512 8 st0 = (Ok example_multi_h, st_multi_h)
  /\ wf_tensor (torch_zeros 16 1 512) = true
  /\ size2 (torch_zeros 16 1 512) = Z.to_nat 512
  /\ exists o,
       Forall (fun hd => Attention_forward (heap st_multi_h) hd
                           (torch_zeros 16 1 512) = Ok o)
              (heads example_multi_h).
Proof.
  assert (H : MultiHeadAttention_init 512 8 st0 = (Ok example_multi_h, st_multi_h))
    by reflexivity.
  split; [reflexivity|]. split; [exact H|].
  split; [reflexivity|]. split; [reflexivity|].
  destruct (X7_heads_compute_the_same 512 8 st0 st_multi_h example_multi_h
              (torch_zeros 16 1 512) eq_refl H eq_refl eq_refl)
    as (o & c & Ho & _).
  exists o. exact Ho.
Defined.

(** ** Forward pass of [Attention], continued *)






Lemma map_nth_seq (v : list R) :
  map (fun j => nth j v 0%R) (seq 0 (length v)) = v.
Proof.
  apply (nth_ext _ _ 0%R 0%R).
  - now rewrite length_map, length_seq.
  - intros k Hk. rewrite length_map, length_seq in Hk.
    rewrite (nth_indep _ 0%R (nth (length v) v 0%R))
      by (now rewrite length_map, length_seq).
    rewrite (map_nth (fun j => nth j v 0%R) (seq 0 (length v)) (length v) k).
    now rewrite seq_nth.
Qed.








(** ** Forward pass of [FullyConnectedFeedForwardNetwork], continued *)

Lemma spec_ffn_rowwise W1 b1 W2 b2 dh dm (m : list (list R)) :
  spec_ffn W1 b1 W2 b2 dh dm m = map (spec_ffn_row W1 b1 W2 b2 dh dm) m.
Proof.
  unfold spec_ffn, spec_ffn_hidden, spec_ffn_row, add_row, matmul, map_matrix.
  now rewrite !map_map.
Qed.

(** [forward] of a constructed network, in either mode, is the dropout
    module applied to the output of the second linear layer. *)
Lemma FullyConnectedFeedForwardNetwork_forward_constructed
    dm dh p st ffn st' x s :
  FullyConnectedFeedForwardNetwork_init dm dh p st = (Ok ffn, st') ->
  size2 x = Z.to_nat dm ->
  heap s = heap st' ->
  exists l1 l2,
    model ffn = [LLinear l1; LReLU; LLinear l2; LDropout p true]
    /\ out_features l2 = Z.to_nat dm
    /\ forall mode,
         FullyConnectedFeedForwardNetwork_forward
           (FullyConnectedFeedForwardNetwork_train ffn mode) x s =
         F_dropout (ffn_output_tensor (heap st') l1 l2 x) p mode s.
Proof.
  intros Hinit Hs Hheap.
  apply FullyConnectedFeedForwardNetwork_init_inv in Hinit.
  destruct Hinit as (_ & _ & l1 & l2 & s1 & H1 & H2 & Hmodel).
  apply Linear_init_inv in H1, H2.
  destruct H1 as (_ & _ & Hi1 & Ho1 & _ & Hb1 & Hok1 & _ & _).
  destruct H2 as (_ & _ & Hi2 & Ho2 & _ & Hb2 & Hok2 & (t & Ht & _) & _).
  assert (Hok1' : Linear_ok (heap s) l1)
    by (rewrite Hheap, Ht; now apply Linear_ok_app).
  rewrite <- Hheap in Hok2.
  exists l1, l2. split; [exact Hmodel|]. split; [exact Ho2|]. intros mode.
  unfold FullyConnectedFeedForwardNetwork_forward,
    FullyConnectedFeedForwardNetwork_train.
  cbn [model]. rewrite Hmodel. cbn [map Layer_set_training].
  rewrite (Sequential_forward_ffn s l1 l2 _ _ p mode x Hok1' Hok2 Hb1 Hb2);
    [|congruence|congruence].
  rewrite Hheap. reflexivity.
Qed.

(** X10. The network is position-wise: there is one function on rows such
    that, in evaluation mode and for every input of trailing size
    [d_model], each row of the output is that function of the row of the
    input at the same batch index and position; the state is unchanged. *)
Theorem X10_feed_forward_position_wise (dm dh : Z) (p : Q) (st st' : State)
    (ffn : FullyConnectedFeedForwardNetwork) :
  FullyConnectedFeedForwardNetwork_init dm dh p st = (Ok ffn, st') ->
  exists f : list R -> list R,
    forall x s,
      size2 x = Z.to_nat dm -> heap s = heap st' ->
      exists y,
        FullyConnectedFeedForwardNetwork_forward
          (FullyConnectedFeedForwardNetwork_eval ffn) x s = (Ok y, s)
        /\ data y = map (map f) (data x).
Proof.
  intros Hinit.
  pose proof (FullyConnectedFeedForwardNetwork_init_inv _ _ _ _ _ _ Hinit)
    as (_ & _ & l1 & l2 & s1 & _ & _ & Hmodel).
  exists (spec_ffn_row (projection_of (heap st') l1) (bias_of (heap st') l1)
            (projection_of (heap st') l2) (bias_of (heap st') l2)
            (out_features l1) (out_features l2)).
  intros x s Hs Hheap.
  destruct (FullyConnectedFeedForwardNetwork_forward_constructed
              _ _ _ _ _ _ x s Hinit Hs Hheap) as (l1' & l2' & Hmodel' & _ & Hfwd).
  rewrite Hmodel in Hmodel'. inversion Hmodel'; subst l1' l2'.
  eexists. split.
  - unfold FullyConnectedFeedForwardNetwork_eval. rewrite (Hfwd false).
    reflexivity.
  - cbn [data ffn_output_tensor]. apply map_ext. intros m.
    apply spec_ffn_rowwise.
Qed.

Lemma X10_feed_forward_position_wise_witness :
  FullyConnectedFeedForwardNetwork_init 512 2048 (1 # 2) st0 =
    (Ok example_ffn, st_ffn)
  /\ exists f : list R -> list R,
       exists y,
         FullyConnectedFeedForwardNetwork_forward
           (FullyConnectedFeedForwardNetwork_eval example_ffn)
           (torch_zeros 16 1 512) st_ffn = (Ok y, st_ffn)
         /\ data y = map (map f) (data (torch_zeros 16 1 512)).
Proof.
  assert (H : FullyConnectedFeedForwardNetwork_init 512 2048 (1 # 2) st0 =
              (Ok example_ffn, st_ffn)) by reflexivity.
  split; [exact H|].
  destruct (X10_feed_forward_position_wise 512 2048 (1 # 2) st0 st_ffn
              example_ffn H) as (f & Hf).
  exists f. exact (Hf (torch_zeros 16 1 512) st_ffn eq_refl eq_refl).
Defined.

(** With the probabilities 0 and 1 the dropout draws nothing. *)
Lemma F_dropout_zero x s : F_dropout x 0 true s = (Ok x, s).
Proof. reflexivity. Qed.





(** X12. A network constructed with [dropout_prob = 0] returns in training
    mode, with generator draws below 1, the same tensor as in evaluation
    mode: nothing is dropped or rescaled. *)
Theorem X12_dropout_zero_keeps_the_output (dm dh : Z) (st st' s : State)
    (ffn : FullyConnectedFeedForwardNetwork) (x : Tensor) :
  FullyConnectedFeedForwardNetwork_init dm dh 0 st = (Ok ffn, st') ->
  size2 x = Z.to_nat dm ->
  heap s = heap st' ->
  (forall k, (rng s k < 1)%R) ->
  exists y s',
    FullyConnectedFeedForwardNetwork_forward ffn x s = (Ok y, s')
    /\ FullyConnectedFeedForwardNetwork_forward
         (FullyConnectedFeedForwardNetwork_eval ffn) x s = (Ok y, s).
Proof.
  intros Hinit Hs Hheap Hrng.
  destruct (FullyConnectedFeedForwardNetwork_forward_constructed
              _ _ _ _ _ _ x s Hinit Hs Hheap) as (l1 & l2 & Hmodel & Ho2 & Hfwd).
  pose proof (Hfwd true) as Htr. pose proof (Hfwd false) as Hev.
  assert (Htrain : FullyConnectedFeedForwardNetwork_train ffn true = ffn).
  { destruct ffn as [layers]. simpl in Hmodel. subst layers. reflexivity. }
  rewrite Htrain in Htr. unfold FullyConnectedFeedForwardNetwork_eval.
  rewrite Htr, Hev, F_dropout_zero.
  exists (ffn_output_tensor (heap st') l1 l2 x), s. split; reflexivity.
Qed.

Lemma X12_dropout_zero_keeps_the_output_witness :
  FullyConnectedFeedForwardNetwork_init 4 8 0 st0 =
    (Ok {| model := [LLinear (mkLinear 4 8 0 (Some 1)); LReLU;
                     LLinear (mkLinear 8 4 2 (Some 3)); LDropout 0 true] |},
     snd (FullyConnectedFeedForwardNetwork_init 4 8 0 st0))
  /\ size2 (torch_zeros 2 3 4) = Z.to_nat 4
  /\ (forall k,
        (rng (snd (FullyConnectedFeedForwardNetwork_init 4 8 0 st0)) k < 1)%R)
  /\ exists y s',
       FullyConnectedFeedForwardNetwork_forward
         {| model := [LLinear (mkLinear 4 8 0 (Some 1)); LReLU;
                      LLinear (mkLinear 8 4 2 (Some 3)); LDropout 0 true] |}
         (torch_zeros 2 3 4)
         (snd (FullyConnectedFeedForwardNetwork_init 4 8 0 st0)) = (Ok y, s')
       /\ FullyConnectedFeedForwardNetwork_forward
            (FullyConnectedFeedForwardNetwork_eval
               {| model := [LLinear (mkLinear 4 8 0 (Some 1)); LReLU;
                            LLinear (mkLinear 8 4 2 (Some 3)); LDropout 0 true] |})
            (torch_zeros 2 3 4)
            (snd (FullyConnectedFeedForwardNetwork_init 4 8 0 st0))
          = (Ok y, snd (FullyConnectedFeedForwardNetwork_init 4 8 0 st0)).
Proof.
  assert (H : FullyConnectedFeedForwardNetwork_init 4 8 0 st0 =
    (Ok {| model := [LLinear (mkLinear 4 8 0 (Some 1)); LReLU;
                     LLinear (mkLinear 8 4 2 (Some 3)); LDropout 0 true] |},
     snd (FullyConnectedFeedForwardNetwork_init 4 8 0 st0))) by reflexivity.
  assert (Hr : forall k,
    (rng (snd (FullyConnectedFeedForwardNetwork_init 4 8 0 st0)) k < 1)%R).
  { intros k. change (0 < 1)%R. apply Rlt_0_1. }
  split; [exact H|]. split; [reflexivity|]. split; [exact Hr|].
  exact (X12_dropout_zero_keeps_the_output 4 8 st0 _ _ _ (torch_zeros 2 3 4)
           H eq_refl eq_refl Hr).
Defined.

Lemma Layer_forward_state l x s :
  heap (snd (Layer_forward l x s)) = heap s
  /\ rng (snd (Layer_forward l x s)) = rng s
  /\ rng_pos s <= rng_pos (snd (Layer_forward l x s))
  /\ (match l with LDropout _ true => False | _ => True end ->
      snd (Layer_forward l x s) = s).
Proof.
  destruct l as [lin| |p [|]]; simpl; try (repeat split; auto; lia).
  unfold F_dropout.
  destruct (Qeq_bool p 0); [|destruct (Qeq_bool p 1)]; simpl;
    repeat split; auto; try lia; intros [].
Qed.

Lemma Sequential_forward_state layers : forall x s,
  heap (snd (Sequential_forward layers x s)) = heap s
  /\ rng (snd (Sequential_forward layers x s)) = rng s
  /\ rng_pos s <= rng_pos (snd (Sequential_forward layers x s))
  /\ (Forall (fun l => match l with LDropout _ true => False | _ => True end)
             layers ->
      snd (Sequential_forward layers x s) = s).
Proof.
  induction layers as [|l layers IH]; intros x s.
  - simpl. repeat split; auto.
  - cbn [Sequential_forward]. unfold bind.
    destruct (Layer_forward_state l x s) as (Hh & Hr & Hp & He).
    destruct (Layer_forward l x s) as [[y|e] s1]; simpl in Hh, Hr, Hp, He.
    + destruct (IH y s1) as (Hh' & Hr' & Hp' & He').
      split; [congruence|]. split; [congruence|]. split; [lia|].
      intros HF. inversion HF as [|? ? Hl HF']; subst.
      rewrite (He' HF'). now apply He.
    + simpl. split; [exact Hh|]. split; [exact Hr|]. split; [exact Hp|].
      intros HF. inversion HF as [|? ? Hl HF']; subst. now apply He.
Qed.

(** X13. [forward] of any feed-forward network on any input, whether it
    returns or raises, leaves the parameter store and the generator's
    stream as they were and never rewinds the generator; after [eval()] it
    leaves the whole state unchanged (no random draw is made). *)
Theorem X13_forward_preserves_the_store
    (ffn : FullyConnectedFeedForwardNetwork) (x : Tensor) (s : State) :
  heap (snd (FullyConnectedFeedForwardNetwork_forward ffn x s)) = heap s
  /\ rng (snd (FullyConnectedFeedForwardNetwork_forward ffn x s)) = rng s
  /\ rng_pos s <= rng_pos (snd (FullyConnectedFeedForwardNetwork_forward ffn x s))
  /\ snd (FullyConnectedFeedForwardNetwork_forward
            (FullyConnectedFeedForwardNetwork_eval ffn) x s) = s.
Proof.
  unfold FullyConnectedFeedForwardNetwork_forward.
  destruct (Sequential_forward_state (model ffn) x s) as (Hh & Hr & Hp & _).
  split; [exact Hh|]. split; [exact Hr|]. split; [exact Hp|].
  apply Sequential_forward_state.
  unfold FullyConnectedFeedForwardNetwork_eval,
    FullyConnectedFeedForwardNetwork_train. cbn [model].
  apply Forall_forall. intros l Hl. apply in_map_iff in Hl.
  destruct Hl as [l0 [<- _]]. destruct l0; exact I.
Qed.

(** ** The example cells *)

(** X14. For every tensor of shape (16, 1, 512) that [torch.randn] may
    have drawn and every state of the interpreter, the three example cells
    show the sizes recorded in the notebook: (16, 1, 64) for the head,
    (16, 1, 512) for the multi-head module and for the feed-forward
    network. *)
Theorem X14_example_cells (input : Tensor) (st : State) :
  wf_tensor input = true ->
  size input = (16, 1, 512) ->
  fst (cell_attention input st) = Ok (16, 1, 64)
  /\ fst (cell_multi_h input st) = Ok (16, 1, 512)
  /\ fst (cell_ffn input st) = Ok (16, 1, 512).
Proof.
  intros Hwf Hsz.
  assert (H0 : size0 input = 16) by (unfold size in Hsz; congruence).
  assert (H1 : size1 input = 1) by (unfold size in Hsz; congruence).
  assert (H2 : size2 input = Z.to_nat 512) by exact (f_equal snd Hsz).
  split; [|split].
  - unfold cell_attention.
    rewrite (bind_Ok _ _ st 64%Z st) by reflexivity.
    destruct (Attention_init_succeeds 512 64 st) as (a & s1 & Ha);
      [discriminate|discriminate|].
    rewrite (bind_Ok _ _ _ _ _ Ha).
    apply Attention_init_inv in Ha.
    destruct Ha as (_ & _ & Hok & Hdims & _).
    destruct (Attention_forward_eq _ _ _ _ _ Hok Hdims Hwf H2) as [_ Hfwd].
    unfold bind, read, ret. rewrite Hfwd. simpl. unfold size. simpl.
    now rewrite H0, H1.
  - unfold cell_multi_h.
    destruct (MultiHeadAttention_init_succeeds 512 8 st) as (m & s1 & Hm & _);
      [reflexivity|discriminate|reflexivity|reflexivity|].
    rewrite (bind_Ok _ _ _ _ _ Hm).
    destruct (MultiHeadAttention_forward_ok 512 8 st m s1 input eq_refl Hm Hwf H2)
      as (outs & c & y & _ & _ & _ & _ & _ & _ & _ & _ & _ & Hfwd & Hys & _).
    unfold bind, read, ret. rewrite Hfwd. simpl. rewrite Hys.
    now rewrite H0, H1.
  - unfold cell_ffn.
    destruct (FullyConnectedFeedForwardNetwork_init_succeeds 512 2048 (1 # 2) st)
      as (f & s1 & Hf); [discriminate|discriminate|discriminate|discriminate|].
    rewrite (bind_Ok _ _ _ _ _ Hf).
    destruct (FullyConnectedFeedForwardNetwork_forward_constructed
                _ _ _ _ _ _ input s1 Hf H2 eq_refl)
      as (l1 & l2 & Hmodel & Ho2 & Hfwd).
    specialize (Hfwd true).
    assert (Htrain : FullyConnectedFeedForwardNetwork_train f true = f).
    { destruct f as [layers]. simpl in Hmodel. subst layers. reflexivity. }
    rewrite Htrain in Hfwd. unfold bind. rewrite Hfwd. unfold F_dropout, ret.
    simpl. unfold size. simpl. now rewrite Ho2, H0, H1.
Qed.

Lemma X14_example_cells_witness :
  wf_tensor (torch_zeros 16 1 512) = true
  /\ size (torch_zeros 16 1 512) = (16, 1, 512)
  /\ fst (cell_attention (torch_zeros 16 1 512) st0) = Ok (16, 1, 64)
  /\ fst (cell_multi_h (torch_zeros 16 1 512) st0) = Ok (16, 1, 512)
  /\ fst (cell_ffn (torch_zeros 16 1 512) st0) = Ok (16, 1, 512).
Proof.
  split; [reflexivity|]. split; [reflexivity|].
  exact (X14_example_cells (torch_zeros 16 1 512) st0 eq_refl eq_refl).
Defined.

(** ** Attention and the order of the positions *)

Lemma nth_nil_R (i : nat) : nth i (@nil R) 0%R = 0%R.
Proof. destruct i; reflexivity. Qed.

Lemma map_nth_seq_matrix (K : list (list R)) :
  map (fun j => nth j K []) (seq 0 (length K)) = K.
Proof.
  apply (nth_ext _ _ [] []).
  - now rewrite length_map, length_seq.
  - intros k Hk. rewrite length_map, length_seq in Hk.
    rewrite (nth_indep _ [] (nth (length K) K []))
      by (now rewrite length_map, length_seq).
    rewrite (map_nth (fun j => nth j K []) (seq 0 (length K)) (length K) k).
    now rewrite seq_nth.
Qed.

(** Transposing twice gives the matrix back. *)
Lemma transpose_matrix_involutive n (K : list (list R)) :
  Forall (fun r => length r = n) K ->
  transpose_matrix (length K) (transpose_matrix n K) = K.
Proof.
  intros Hrows. unfold transpose_matrix at 1.
  etransitivity; [|apply map_nth_seq_matrix].
  apply map_ext_in. intros j Hj. apply in_seq in Hj.
  unfold column at 1. unfold transpose_matrix. rewrite map_map.
  assert (Hlen : length (nth j K []) = n).
  { rewrite Forall_forall in Hrows. apply Hrows, nth_In. lia. }
  etransitivity; [|apply (map_nth_seq (nth j K []))]. rewrite Hlen.
  apply map_ext. intros i. unfold column.
  etransitivity; [|apply (map_nth (fun r => nth i r 0%R) K [] j)].
  apply nth_indep. rewrite length_map. lia.
Qed.

Lemma dot_map_map {A} (a c : A -> R) (m : list A) :
  dot (map a m) (map c m) = sum (map (fun r => (a r * c r)%R) m).
Proof. unfold dot. now rewrite map2_map_map. Qed.

(** Scoring queries against keys: the product with the transposed keys
    takes the dot product of every query row with every key row. *)
Lemma matmul_transpose n (Q K : list (list R)) :
  Forall (fun r => length r = n) K ->
  matmul (length K) Q (transpose_matrix n K) = map (fun q => map (dot q) K) Q.
Proof.
  intros HK. unfold matmul. now rewrite (transpose_matrix_involutive n K HK).
Qed.

(** The output of a batch entry, row by row. *)
Lemma spec_attention_rows Wq Wk Wv dk (m : list (list R)) :
  spec_attention Wq Wk Wv dk m = map (attention_row Wq Wk Wv dk m) m.
Proof.
  unfold spec_attention, spec_attention_weights.
  assert (HK : Forall (fun r => length r = dk) (matmul dk m Wk)).
  { pose proof (wf_matmul dk m Wk) as H. apply wf_matrix_iff in H. tauto. }
  assert (HlK : length (matmul dk m Wk) = length m)
    by (unfold matmul; now rewrite length_map).
  rewrite <- HlK at 1. rewrite (matmul_transpose dk _ _ HK).
  unfold map_matrix. unfold matmul at 1.
  change (matmul dk m Wq)
    with (map (fun r => map (dot r) (transpose_matrix dk Wq)) m).
  rewrite !map_map.
  apply map_ext. intros r. unfold attention_row.
  change (transpose_matrix dk (matmul dk m Wv))
    with (map (fun j => column j (matmul dk m Wv)) (seq 0 dk)).
  rewrite map_map.
  apply map_ext. intros k. unfold column, matmul. rewrite !map_map.
  reflexivity.
Qed.

Lemma sum_Permutation (l l' : list R) : Permutation l l' -> sum l = sum l'.
Proof.
  unfold sum. induction 1; simpl; lra.
Qed.

Lemma fold_right_Rmax_swap (x y : R) (l : list R) :
  Rmax x (fold_right Rmax y l) = Rmax y (fold_right Rmax x l).
Proof.
  induction l as [|a l IH]; simpl; [apply Rmax_comm|].
  rewrite Rmax_assoc, (Rmax_comm x a), <- Rmax_assoc, IH.
  rewrite Rmax_assoc, (Rmax_comm a y), <- Rmax_assoc. reflexivity.
Qed.

Lemma fold_right_Rmax_Permutation (l l' : list R) :
  Permutation l l' -> forall b, fold_right Rmax b l = fold_right Rmax b l'.
Proof.
  induction 1; intros b; simpl.
  - reflexivity.
  - now rewrite IHPermutation.
  - rewrite !Rmax_assoc, (Rmax_comm y x). reflexivity.
  - now rewrite IHPermutation1.
Qed.

Lemma max_list_Permutation (l l' : list R) :
  Permutation l l' -> max_list l = max_list l'.
Proof.
  induction 1 as [|x l l' Hp _|x y l|l l' l'' _ IH1 _ IH2]; simpl.
  - reflexivity.
  - now apply fold_right_Rmax_Permutation.
  - apply fold_right_Rmax_swap.
  - congruence.
Qed.

(** The row that a position gets does not depend on the order of the
    positions it attends over. *)
Lemma attention_row_Permutation Wq Wk Wv dk (m m' : list (list R)) (r : list R) :
  Permutation m m' ->
  attention_row Wq Wk Wv dk m r = attention_row Wq Wk Wv dk m' r.
Proof.
  intros Hp. unfold attention_row. apply map_ext. intros k.
  unfold softmax_row. rewrite !map_map, !dot_map_map.
  set (s := fun rj : list R =>
    (dot (map (dot r) (transpose_matrix dk Wq))
         (map (dot rj) (transpose_matrix dk Wk)) * (1 / sqrt (INR dk)))%R).
  assert (HM : max_list (map s m) = max_list (map s m'))
    by (apply max_list_Permutation, Permutation_map, Hp).
  rewrite <- HM.
  assert (HS : sum (map (fun x => exp (s x - max_list (map s m))) m) =
               sum (map (fun x => exp (s x - max_list (map s m))) m'))
    by (apply sum_Permutation, Permutation_map, Hp).
  unfold s in HS at 1 3. cbv beta in HS.
  rewrite <- HS. apply sum_Permutation, Permutation_map, Hp.
Qed.

(** X15. A head has no notion of position: if the rows of a batch entry of
    [x'] are a rearrangement of the rows of the same batch entry of [x],
    then the pairs (input row, output row) of that entry are rearranged in
    the same way; every input row keeps its output row. *)
Theorem X15_attention_permutation_equivariant (dm dk : Z) (st st' : State)
    (a : Attention) (x x' y y' : Tensor) (i : nat) :
  Attention_init dm dk st = (Ok a, st') ->
  wf_tensor x = true -> wf_tensor x' = true ->
  size2 x = Z.to_nat dm -> size2 x' = Z.to_nat dm ->
  Attention_forward (heap st') a x = Ok y ->
  Attention_forward (heap st') a x' = Ok y' ->
  i < size0 x -> i < size0 x' ->
  Permutation (nth i (data x) []) (nth i (data x') []) ->
  Permutation (combine (nth i (data x) []) (nth i (data y) []))
              (combine (nth i (data x') []) (nth i (data y') [])).
Proof.
  intros Hinit Hwf Hwf' Hs Hs' Hy Hy' Hi Hi' Hp.
  apply Attention_init_inv in Hinit.
  destruct Hinit as (_ & _ & Hok & Hdims & _ & _ & _).
  destruct (Attention_forward_eq _ _ _ _ _ Hok Hdims Hwf Hs) as [_ Hfwd].
  destruct (Attention_forward_eq _ _ _ _ _ Hok Hdims Hwf' Hs') as [_ Hfwd'].
  rewrite Hfwd in Hy. rewrite Hfwd' in Hy'.
  inversion Hy; subst y; clear Hy. inversion Hy'; subst y'; clear Hy'.
  cbn [data].
  set (f := spec_attention (projection_of (heap st') (weightQ a))
              (projection_of (heap st') (weightK a))
              (projection_of (heap st') (weightV a)) (Z.to_nat dk)).
  assert (Hnth : forall l k, k < length l -> nth k (map f l) [] = f (nth k l [])).
  { intros l k Hk. rewrite (nth_indep _ [] (f [])) by (now rewrite length_map).
    apply map_nth. }
  apply wf_tensor_iff in Hwf, Hwf'. destruct Hwf as [Hl _], Hwf' as [Hl' _].
  rewrite !Hnth by lia. unfold f. rewrite !spec_attention_rows.
  set (m := nth i (data x) []) in *. set (m' := nth i (data x') []) in *.
  assert (Hcomb : forall (g : list R -> list R) (l : list (list R)),
            combine l (map g l) = map (fun r => (r, g r)) l).
  { intros g l. induction l as [|r l IH]; simpl; [reflexivity|]. now rewrite IH. }
  rewrite !Hcomb.
  rewrite (map_ext _ _ (fun r => f_equal (pair r)
             (attention_row_Permutation _ _ _ _ m m' r Hp))).
  apply Permutation_map, Hp.
Qed.

Lemma X15_attention_permutation_equivariant_witness :
  Attention_init 2 1 st0 = (Ok small_head, st_small_head)
  /\ Permutation (nth 0 (data two_positions) [])
                 (nth 0 (data two_positions_swapped) [])
  /\ exists y y',
       Attention_forward (heap st_small_head) small_head two_positions = Ok y
       /\ Attention_forward (heap st_small_head) small_head
            two_positions_swapped = Ok y'
       /\ Permutation
            (combine (nth 0 (data two_positions) []) (nth 0 (data y) []))
            (combine (nth 0 (data two_positions_swapped) [])
                     (nth 0 (data y') [])).
Proof.
  assert (H : Attention_init 2 1 st0 = (Ok small_head, st_small_head))
    by reflexivity.
  assert (Hp : Permutation (nth 0 (data two_positions) [])
                           (nth 0 (data two_positions_swapped) []))
    by apply perm_swap.
  split; [exact H|]. split; [exact Hp|].
  destruct (Attention_init_inv _ _ _ _ _ H) as (_ & _ & Hok & Hdims & _).
  destruct (Attention_forward_eq _ _ two_positions _ _ Hok Hdims eq_refl eq_refl)
    as [_ Hy].
  destruct (Attention_forward_eq _ _ two_positions_swapped _ _ Hok Hdims
              eq_refl eq_refl) as [_ Hy'].
  eexists. eexists. split; [exact Hy|]. split; [exact Hy'|].
  exact (X15_attention_permutation_equivariant 2 1 st0 st_small_head small_head
           two_positions two_positions_swapped _ _ 0
           H eq_refl eq_refl eq_refl eq_refl Hy Hy' (Nat.lt_0_succ 0)
           (Nat.lt_0_succ 0) Hp).
Defined.
